(** * Notebook editor: cell view model, deferred layout and structural edits

    A shallow embedding of
    [src/vs/workbench/contrib/notebook/browser/notebookEditor.ts]:
    the [ViewCell] class, the [NotebookCellListDelegate], and the
    [NotebookEditor] methods [onHide], [setInput], [layoutElement],
    [insertEmptyNotebookCell] and [deleteNotebookCell].

    JavaScript objects have identity and are shared: a [ViewCell] holds a
    reference to its backing [ICell], the same [ICell] sits in the notebook
    model's [cells] array, and the same [ViewCell] sits both in
    [NotebookEditor.viewCells] and in the list widget.  The embedding
    therefore keeps an explicit store of objects addressed by location and
    threads it through every method with a state-and-exception monad.

    The two cell renderers build DOM nodes; of them, what [renderElement]
    and the callbacks it registers do to a cell and to the editor is
    embedded, with the values read from the page as arguments.  JavaScript
    numbers are taken to be integers: line counts, line heights and pixel
    heights. *)

From stdpp Require Import base strings list gmap fin_maps.
From Stdlib Require Import ZArith Lia.

Open Scope string_scope.
Open Scope list_scope.
Open Scope Z_scope.

(** ** JavaScript arrays *)

Module Array.

(** [Array.prototype.indexOf] with strict equality: the index of the
    first occurrence, [-1] when there is none. *)
Fixpoint indexOf_from `{EqDecision A} (x : A) (l : list A) (i : Z) : Z :=
  match l with
  | [] => -1
  | y :: l' => if decide (y = x) then i else indexOf_from x l' (i + 1)
  end.

Definition indexOf `{EqDecision A} (x : A) (l : list A) : Z :=
  indexOf_from x l 0.

(** [Array.prototype.splice(start, deleteCount, ...items)], as ECMAScript
    defines it: a negative [start] counts from the end, both numbers are
    clamped to the array.  The callers here discard the returned array of
    removed elements, so only the mutated array is produced. *)
Definition splice {A} (start deleteCount : Z) (items l : list A) : list A :=
  let len := Z.of_nat (length l) in
  let actualStart :=
    if start <? 0 then Z.max (len + start) 0 else Z.min start len in
  let actualDeleteCount := Z.min (Z.max deleteCount 0) (len - actualStart) in
  take (Z.to_nat actualStart) l ++ items
    ++ drop (Z.to_nat (actualStart + actualDeleteCount)) l.

(** [Array.prototype.join('')] on an array of strings. *)
Definition join (l : list string) : string :=
  foldr String.append EmptyString l.

End Array.

(** ** Data model *)

(** Object references. *)
Definition loc := nat.

Inductive CellType := markdown | code.

Inductive Direction := above | below.

#[global] Instance CellType_eq_dec : EqDecision CellType.
Proof. solve_decision. Defined.

#[global] Instance Direction_eq_dec : EqDecision Direction.
Proof. solve_decision. Defined.

(** Modelled from the spec: the interface [ICell] is declared in
    [notebookEditorInput], which is not part of the sources at hand.
    Section 6 gives the shape of a backing record, [{ kind, source,
    outputs }], and the code reads the kind as [cell_type]; outputs are
    opaque records. *)
Record ICell := mkICell {
  cell_type : CellType;
  source : list string;
  outputs : list string;
}.

(** Modelled from the spec: [ITextModel], the edit buffer of section 3,
    comes from the text editor; [ViewCell] reads one thing from it, the
    current lines without their terminators. *)
Record ITextModel := mkTextModel {
  getLinesContent : list string;
}.

(** The fields of a [ViewCell] object.  [cell] is a reference to the
    backing record; [_mdRenderer] only tells whether the renderer object
    has been created. *)
Record ViewCell := mkViewCell {
  cell : loc;
  isEditing : bool;
  _textModel : option ITextModel;
  _mdRenderer : bool;
  _html : option string;
  _dynamicHeight : option Z;
}.

Definition set_isEditing (b : bool) (v : ViewCell) : ViewCell :=
  mkViewCell (cell v) b (_textModel v) (_mdRenderer v) (_html v) (_dynamicHeight v).
Definition set_textModel (t : option ITextModel) (v : ViewCell) : ViewCell :=
  mkViewCell (cell v) (isEditing v) t (_mdRenderer v) (_html v) (_dynamicHeight v).
Definition set_mdRenderer (b : bool) (v : ViewCell) : ViewCell :=
  mkViewCell (cell v) (isEditing v) (_textModel v) b (_html v) (_dynamicHeight v).
Definition set_html (h : option string) (v : ViewCell) : ViewCell :=
  mkViewCell (cell v) (isEditing v) (_textModel v) (_mdRenderer v) h (_dynamicHeight v).
Definition set_dynamicHeight (h : option Z) (v : ViewCell) : ViewCell :=
  mkViewCell (cell v) (isEditing v) (_textModel v) (_mdRenderer v) (_html v) h.
Definition set_source (l : list string) (c : ICell) : ICell :=
  mkICell (cell_type c) l (outputs c).

(** Modelled from the spec: the document model of section 6, declared in
    [notebookEditorInput].  [getNotebook().cells] is the authoritative
    cell ordering, an array of references to [ICell] objects; [textModel]
    is the object whose identity [setInput] compares. *)
Record INotebook := mkNotebook {
  cells : list loc;
}.

Record NotebookEditorModel := mkModel {
  textModel : loc;
  getNotebook : INotebook;
}.

(** [NotebookCellListDelegate]: its only field. *)
Record NotebookCellListDelegate := mkDelegate {
  _lineHeight : Z;
}.

(** Modelled from the spec: the state of the list widget of section 4.3,
    which is not part of the sources at hand.  A row is the element shown
    and the height the widget currently holds for it; the widget keeps the
    delegate it was created with. *)
Record Row := mkRow {
  element : loc;
  size : Z;
}.

Record WorkbenchList := mkList {
  delegate : NotebookCellListDelegate;
  rows : list Row;
}.

(** Calls made on the two collaborators, in the order they happen. *)
Inductive Call :=
| model_insertCell (c : loc) (index : Z)
| model_deleteCell (c : loc)
| list_splice (start deleteCount : Z) (elements : list loc)
| list_updateDynamicHeight (index : Z) (element : loc) (height : Z)
| list_layout.

(** The store, the fields of the one [NotebookEditor] instance, the
    callbacks handed to [setTimeout], and the log of collaborator calls. *)
Record State := mkState {
  icells : gmap loc ICell;
  vcells : gmap loc ViewCell;
  list_ : option WorkbenchList;
  model : option NotebookEditorModel;
  viewCells : list loc;
  timers : list (loc * Z);
  calls : list Call;
}.

Definition set_icells (f : gmap loc ICell -> gmap loc ICell) (s : State) :=
  mkState (f (icells s)) (vcells s) (list_ s) (model s) (viewCells s) (timers s) (calls s).
Definition set_vcells (f : gmap loc ViewCell -> gmap loc ViewCell) (s : State) :=
  mkState (icells s) (f (vcells s)) (list_ s) (model s) (viewCells s) (timers s) (calls s).
Definition set_list (l : option WorkbenchList) (s : State) :=
  mkState (icells s) (vcells s) l (model s) (viewCells s) (timers s) (calls s).
Definition set_model (m : option NotebookEditorModel) (s : State) :=
  mkState (icells s) (vcells s) (list_ s) m (viewCells s) (timers s) (calls s).
Definition set_viewCells (l : list loc) (s : State) :=
  mkState (icells s) (vcells s) (list_ s) (model s) l (timers s) (calls s).
Definition set_timers (l : list (loc * Z)) (s : State) :=
  mkState (icells s) (vcells s) (list_ s) (model s) (viewCells s) l (calls s).
Definition set_calls (l : list Call) (s : State) :=
  mkState (icells s) (vcells s) (list_ s) (model s) (viewCells s) (timers s) l.

(** ** The state-and-exception monad *)

(** How a JavaScript call ends: normally with a value, or by throwing.  A
    throw does not undo the mutations made before it. *)
Inductive Completion (A : Type) :=
| Normal (a : A)
| Throw (e : string).
Arguments Normal {A} a.
Arguments Throw {A} e.

Definition M (A : Type) : Type := State -> Completion A * State.

#[global] Instance M_ret : MRet M := fun A a s => (Normal a, s).
#[global] Instance M_bind : MBind M := fun A B f m s =>
  match m s with
  | (Normal a, s') => f a s'
  | (Throw e, s') => (Throw e, s')
  end.

Definition throw {A} (e : string) : M A := fun s => (Throw e, s).
Definition get : M State := fun s => (Normal s, s).
Definition modify (f : State -> State) : M unit := fun s => (Normal tt, f s).

(** [forEach]: run the callback on every element in order. *)
Fixpoint forEach {A} (f : A -> M unit) (l : list A) : M unit :=
  match l with
  | [] => mret tt
  | x :: l' => f x ;; forEach f l'
  end.

(** [map] with an effectful callback. *)
Fixpoint mapM_ {A B} (f : A -> M B) (l : list A) : M (list B) :=
  match l with
  | [] => mret []
  | x :: l' => y ← f x; ys ← mapM_ f l'; mret (y :: ys)
  end.

(** Dereferencing.  A JavaScript reference always denotes a live object;
    a location outside the store has no counterpart in the program and is
    reported as a [TypeError]. *)
Definition deref_view (this : loc) : M ViewCell := fun s =>
  match vcells s !! this with
  | Some v => (Normal v, s)
  | None => (Throw "TypeError", s)
  end.

Definition deref_cell (c : loc) : M ICell := fun s =>
  match icells s !! c with
  | Some r => (Normal r, s)
  | None => (Throw "TypeError", s)
  end.

Definition update_view (this : loc) (f : ViewCell -> ViewCell) : M unit :=
  v ← deref_view this; modify (set_vcells <[this := f v]>).

Definition update_cell (c : loc) (f : ICell -> ICell) : M unit :=
  r ← deref_cell c; modify (set_icells <[c := f r]>).

Definition log (c : Call) : M unit :=
  modify (fun s => set_calls (calls s ++ [c]) s).

(** JavaScript truthiness of a [number | null] and of a [string | null]:
    [null], [0] and the empty string are falsy. *)
Definition truthy_number (n : option Z) : bool :=
  match n with
  | Some z => negb (z =? 0)
  | None => false
  end.

Definition truthy_string (x : option string) : bool :=
  match x with
  | Some EmptyString => false
  | Some _ => true
  | None => false
  end.

(** The line terminator ['\n'] that [setText] and [save] append. *)
Definition LF : string := String (Ascii.ascii_of_nat 10) EmptyString.

(** ** Injected services *)

(** The two external functions [ViewCell] calls, taken as parameters: the
    markdown renderer [marked(text, { renderer })], a function of the
    text, and the buffer factory [modelService.createModel], given the
    content and the extension of the synthetic resource name. *)
Class Host := {
  marked : string -> string;
  createModel : string -> string -> ITextModel;
}.

(** ** [class ViewCell] *)

Module ViewCell.

(** [new ViewCell(cell, isEditing, modelService, modeService)]: a fresh
    object with every private field [null]. *)
Definition new (c : loc) (editing : bool) : M loc :=
  s ← get;
  let this := fresh (dom (vcells s)) in
  modify (set_vcells <[this := mkViewCell c editing None false None None]>);;
  mret this.

Definition cellType (this : loc) : M CellType :=
  v ← deref_view this; r ← deref_cell (cell v); mret (cell_type r).

Definition lineCount (this : loc) : M Z :=
  v ← deref_view this; r ← deref_cell (cell v);
  mret (Z.of_nat (length (source r))).

Definition hasDynamicHeight (this : loc) : M bool :=
  v ← deref_view this;
  match _dynamicHeight v with
  | Some _ => mret false
  | None => mret true
  end.

Definition setDynamicHeight (this : loc) (height : Z) : M unit :=
  update_view this (set_dynamicHeight (Some height)).

Definition getHeight (this : loc) (lineHeight : Z) : M Z :=
  v ← deref_view this;
  if truthy_number (_dynamicHeight v) then mret (default 0 (_dynamicHeight v))
  else
    t ← cellType this;
    match t with
    | markdown => mret 100
    | code => n ← lineCount this; mret (Z.max (n + 1) 5 * lineHeight + 16)
    end.

Definition setText (this : loc) (strs : list string) : M unit :=
  v ← deref_view this;
  update_cell (cell v) (set_source (map (fun str => str +:+ LF) strs));;
  update_view this (set_html None).

Definition save (this : loc) : M unit :=
  v ← deref_view this;
  match _textModel v with
  | Some tm =>
      if isEditing v then
        update_cell (cell v)
          (set_source (map (fun str => str +:+ LF) (getLinesContent tm)))
      else mret tt
  | None => mret tt
  end.

Definition getText (this : loc) : M string :=
  v ← deref_view this; r ← deref_cell (cell v);
  mret (Array.join (source r)).

Definition getMDRenderer (this : loc) : M unit :=
  v ← deref_view this;
  if _mdRenderer v then mret tt else update_view this (set_mdRenderer true).

Definition getHTML {host : Host} (this : loc) : M (option string) :=
  t ← cellType this;
  match t with
  | markdown =>
      v ← deref_view this;
      if truthy_string (_html v) then mret (_html v)
      else
        getMDRenderer this;;
        text ← getText this;
        update_view this (set_html (Some (marked text)));;
        mret (Some (marked text))
  | code => mret None
  end.

Definition getTextModel {host : Host} (this : loc) : M ITextModel :=
  v ← deref_view this;
  match _textModel v with
  | Some tm => mret tm
  | None =>
      t ← cellType this;
      let ext := match t with markdown => "md" | code => "py" end in
      r ← deref_cell (cell v);
      let content := Array.join (source r) in
      update_view this (set_textModel (Some (createModel content ext)));;
      mret (createModel content ext)
  end.

Definition outputs (this : loc) : M (list string) :=
  v ← deref_view this; r ← deref_cell (cell v); mret (outputs r).

End ViewCell.

(** ** [class NotebookCellListDelegate] *)

Module NotebookCellListDelegate.

Definition getHeight (this : NotebookCellListDelegate) (element : loc) : M Z :=
  ViewCell.getHeight element (_lineHeight this).

Definition hasDynamicHeight (this : NotebookCellListDelegate) (element : loc) : M bool :=
  ViewCell.hasDynamicHeight element.

End NotebookCellListDelegate.

(** ** The list widget *)

Module WorkbenchList.

(** Modelled from the spec: the list widget ([WorkbenchList], from
    [vs/platform/list/browser/listService]) is not part of the sources at
    hand.  Section 4.3 gives its contract: [splice(start, deleteCount,
    insertItems)] is a structural mutation of the rendered order, and the
    heights of the new rows are the estimates the delegate returns.  The
    contract is silent about a [start] outside the rows; the array's own
    clamping is used there and nothing is concluded from it. *)
Definition splice (start deleteCount : Z) (elements : list loc)
    (this : WorkbenchList) : M WorkbenchList :=
  new_rows ← mapM_ (fun e =>
      h ← NotebookCellListDelegate.getHeight (delegate this) e;
      mret (mkRow e h)) elements;
  mret (mkList (delegate this)
          (Array.splice start deleteCount new_rows (rows this))).

(** Modelled from the spec: [list.length], the number of rows. *)
Definition length (this : WorkbenchList) : Z :=
  Z.of_nat (List.length (rows this)).

(** Modelled from the spec: section 4.3, [updateDynamicHeight(index, cell,
    newHeight)] patches the height of a single item; if [index] no longer
    corresponds to [cell] the call is a no-op, not an error. *)
Definition updateDynamicHeight (index : Z) (elem : loc) (height : Z)
    (this : WorkbenchList) : WorkbenchList :=
  if index <? 0 then this
  else
    match rows this !! Z.to_nat index with
    | Some r =>
        if decide (element r = elem)
        then mkList (delegate this) (<[Z.to_nat index := mkRow elem height]> (rows this))
        else this
    | None => this
    end.

(** Modelled from the spec: [layout] reflows the visible items; the order
    and the heights held for the rows stay as they are. *)
Definition layout (this : WorkbenchList) : WorkbenchList := this.

End WorkbenchList.

(** ** The backing document model *)

Module NotebookEditorModel.

(** Modelled from the spec: [NotebookEditorModel] (from
    [notebookEditorInput]) is not part of the sources at hand.  Section 6
    lists [insertCell(record, index)]: the record is inserted into the
    ordered sequence of cells at [index]. *)
Definition insertCell (c : loc) (index : Z) (this : NotebookEditorModel)
    : NotebookEditorModel :=
  mkModel (textModel this)
    (mkNotebook (Array.splice index 0 [c] (cells (getNotebook this)))).

(** Modelled from the spec: section 6 lists [deleteCell(record)], and
    section 4.5 has the removal located by identity: the record is removed
    where it stands, and a record that is not there removes nothing. *)
Definition deleteCell (c : loc) (this : NotebookEditorModel)
    : NotebookEditorModel :=
  let index := Array.indexOf c (cells (getNotebook this)) in
  if index <? 0 then this
  else mkModel (textModel this)
         (mkNotebook (Array.splice index 1 [] (cells (getNotebook this)))).

End NotebookEditorModel.

(** ** [class NotebookEditor] *)

Module NotebookEditor.

(** [this.model!]: the non-null assertion is erased by the compiler, so
    reading a member of an undefined model throws. *)
Definition the_model : M NotebookEditorModel :=
  s ← get;
  match model s with
  | Some m => mret m
  | None => throw "TypeError"
  end.

(** [this.model!.m(...)] for a mutating method [m] of the model. *)
Definition on_model (c : Call) (f : NotebookEditorModel -> NotebookEditorModel)
    : M unit :=
  m ← the_model;
  log c;;
  modify (set_model (Some (f m))).

(** [this.list?.m(...)]: nothing happens while the list is undefined. *)
Definition on_list (c : Call) (f : WorkbenchList -> M WorkbenchList) : M unit :=
  s ← get;
  match list_ s with
  | Some l => log c;; l' ← f l; modify (set_list (Some l'))
  | None => mret tt
  end.

(** [onHide]: [super.onHide()] belongs to [BaseEditor], which knows none
    of the fields of this class; what is left is the loop. *)
Definition onHide : M unit :=
  s ← get;
  forEach (fun c => update_view c (set_isEditing false)) (viewCells s).

(** [setInput], from the point where [input.resolve()] has produced
    [resolved]: the body of the last [then]. *)
Definition setInput (resolved : NotebookEditorModel) : M unit :=
  s ← get;
  if match model s with
     | Some m => bool_decide (textModel m = textModel resolved)
     | None => false
     end
  then mret tt
  else
    forEach ViewCell.save (viewCells s);;
    modify (set_model (Some resolved));;
    vcs ← mapM_ (fun c => ViewCell.new c false) (cells (getNotebook resolved));
    modify (set_viewCells vcs);;
    s' ← get;
    on_list (list_splice 0 (from_option WorkbenchList.length 0 (list_ s')) vcs)
      (fun l => WorkbenchList.splice 0 (WorkbenchList.length l) vcs l);;
    on_list list_layout (fun l => mret (WorkbenchList.layout l)).

(** [layoutElement]: the update is handed to [setTimeout(..., 0)] and
    nothing else happens in this turn. *)
Definition layoutElement (c : loc) (height : Z) : M unit :=
  modify (fun s => set_timers (timers s ++ [(c, height)]) s).

(** The callback [layoutElement] scheduled, run in a later turn. *)
Definition layoutElement_timeout (c : loc) (height : Z) : M unit :=
  m ← the_model;
  v ← deref_view c;
  let index := Array.indexOf (cell v) (cells (getNotebook m)) in
  on_list (list_updateDynamicHeight index c height)
    (fun l => mret (WorkbenchList.updateDynamicHeight index c height l)).

(** The event loop takes the oldest pending timer and runs it. *)
Definition runTimeout : M unit :=
  s ← get;
  match timers s with
  | [] => mret tt
  | (c, height) :: rest =>
      modify (set_timers rest);; layoutElement_timeout c height
  end.

(** The object literal [{ cell_type: type, source: [], outputs: [] }]. *)
Definition new_cell (type : CellType) : M loc :=
  s ← get;
  let r := fresh (dom (icells s)) in
  modify (set_icells <[r := mkICell type [] []]>);;
  mret r.

Definition insertEmptyNotebookCell (c : loc) (type : CellType)
    (direction : Direction) : M unit :=
  r ← new_cell type;
  newCell ← ViewCell.new r (bool_decide (type = markdown));
  m ← the_model;
  v ← deref_view c;
  let index := Array.indexOf (cell v) (cells (getNotebook m)) in
  let insertIndex := match direction with above => index | below => index + 1 end in
  modify (fun s => set_viewCells (Array.splice insertIndex 0 [newCell] (viewCells s)) s);;
  nv ← deref_view newCell;
  on_model (model_insertCell (cell nv) insertIndex)
    (NotebookEditorModel.insertCell (cell nv) insertIndex);;
  on_list (list_splice insertIndex 0 [newCell])
    (WorkbenchList.splice insertIndex 0 [newCell]).

Definition deleteNotebookCell (c : loc) : M unit :=
  m ← the_model;
  v ← deref_view c;
  let index := Array.indexOf (cell v) (cells (getNotebook m)) in
  modify (fun s => set_viewCells (Array.splice index 1 [] (viewCells s)) s);;
  v' ← deref_view c;
  on_model (model_deleteCell (cell v')) (NotebookEditorModel.deleteCell (cell v'));;
  on_list (list_splice index 1 []) (WorkbenchList.splice index 1 []).

End NotebookEditor.

(** ** The cell renderers *)

(** The renderers build DOM nodes, and the page is not modelled.  What is
    embedded is what [renderElement] and the callbacks it registers do to
    the cell and to the editor, their [handler]: a value read from the
    page is an argument of the call that reads it, and the writes to the
    page, the editor widgets and the context menu are left out. *)

(** The closure given to [model.onDidChangeContent]: the variables it
    captured.  The buffer [model] it also captured is the one [element]
    holds. *)
Record ContentListener := mkContentListener {
  listener_element : loc;
  listener_totalHeight : Z;
}.

Module MarkdownCellRenderer.

(** [renderElement(element, index, templateData, height)].  The result is
    the listener it registered on the buffer, if it did. *)
Definition renderElement {host : Host} (element : loc) (height : option Z)
    : M (option ContentListener) :=
  v ← deref_view element;
  if isEditing v then
    lineNum ← ViewCell.lineCount element;
    let totalHeight := Z.max (lineNum + 1) 5 * 21 in
    ViewCell.getTextModel element;;
    ViewCell.getHTML element;;
    if truthy_number height
    then mret (Some (mkContentListener element totalHeight))
    else mret None
  else
    ViewCell.getHTML element;; mret None.

(** The listener, called after the content of the buffer has changed.
    [clientHeight] is the height of the preview, read from the page once
    the new rendering has been put there.  A listener exists only after
    [renderElement] has made the cell create its buffer; a cell without
    one has no counterpart in the program. *)
Definition contentChanged {host : Host} (l : ContentListener) (clientHeight : Z)
    : M unit :=
  v ← deref_view (listener_element l);
  match _textModel v with
  | Some model =>
      ViewCell.setText (listener_element l) (getLinesContent model);;
      ViewCell.getHTML (listener_element l);;
      NotebookEditor.layoutElement (listener_element l)
        (listener_totalHeight l + 32 + clientHeight)
  | None => throw "TypeError"
  end.

End MarkdownCellRenderer.

(** The callback given to [ElementSizeObserver]: the variables it
    captured, [dimensions] being the client area of the output container
    at the time of rendering. *)
Record SizeObserver := mkSizeObserver {
  observer_element : loc;
  observer_totalHeight : Z;
  observer_dimensions_height : Z;
}.

Module CodeCellRenderer.

(** Modelled from the spec: [MimeTypeRenderer.render] is declared in
    [notebook/browser/output], which is not part of the sources at hand.
    Section 6 gives its result, [{ visualElement, hasDynamicHeight }];
    the code allows for no result as well.  [render output] is [None] for
    no result and the flag of the result otherwise.  The loop over the
    outputs leaves in [hasDynamicHeight] the flag of the last output that
    gave a result. *)
Definition rendered_hasDynamicHeight (render : string -> option bool)
    (outs : list string) : bool :=
  foldl (fun flag output =>
           match render output with
           | Some b => b
           | None => flag
           end) false outs.

(** [renderElement(element, index, templateData, height)];
    [dimensions_height] is the height of the client area of the output
    container once the outputs are in it.  The result is the observer it
    started, if it did. *)
Definition renderElement {host : Host} (render : string -> option bool)
    (element : loc) (height : option Z) (dimensions_height : Z)
    : M (option SizeObserver) :=
  lineNum ← ViewCell.lineCount element;
  let totalHeight := Z.max (lineNum + 1) 5 * 21 in
  ViewCell.getTextModel element;;
  outs ← ViewCell.outputs element;
  if 0 <? Z.of_nat (length outs) then
    let hasDynamicHeight := rendered_hasDynamicHeight render outs in
    pending ← ViewCell.hasDynamicHeight element;
    if pending && bool_decide (is_Some height) then
      (if negb hasDynamicHeight && negb (dimensions_height =? 0) then
         ViewCell.setDynamicHeight element (totalHeight + 32 + dimensions_height);;
         NotebookEditor.layoutElement element (totalHeight + 32 + dimensions_height)
       else mret tt);;
      mret (Some (mkSizeObserver element totalHeight dimensions_height))
    else mret None
  else mret None.

(** The callback of the observer.  [attached] tells whether the output
    container is still in the document, [height] is the height the
    observer has measured. *)
Definition sizeChanged (o : SizeObserver) (attached : bool) (height : Z) : M unit :=
  if attached then
    if bool_decide (observer_dimensions_height o ≠ height) then
      ViewCell.setDynamicHeight (observer_element o)
        (observer_totalHeight o + 32 + height);;
      NotebookEditor.layoutElement (observer_element o)
        (observer_totalHeight o + 32 + height)
    else mret tt
  else mret tt.

End CodeCellRenderer.

(** ** Everything that can happen to the editor *)

(** The user types into the text buffer of a cell: the buffer, if the cell
    has one, now holds [lines]. *)
Definition edit_buffer (c : loc) (lines : list string) : M unit :=
  v ← deref_view c;
  match _textModel v with
  | Some _ => update_view c (set_textModel (Some (mkTextModel lines)))
  | None => mret tt
  end.

(** One call from outside into the code above: a method of a [ViewCell],
    a method of the [NotebookEditor], a timer firing, or a keystroke. *)
Inductive Event :=
| ev_setDynamicHeight (c : loc) (height : Z)
| ev_hasDynamicHeight (c : loc)
| ev_getHeight (c : loc) (lineHeight : Z)
| ev_setText (c : loc) (strs : list string)
| ev_save (c : loc)
| ev_getText (c : loc)
| ev_getHTML (c : loc)
| ev_getTextModel (c : loc)
| ev_edit_buffer (c : loc) (lines : list string)
| ev_onHide
| ev_setInput (resolved : NotebookEditorModel)
| ev_layoutElement (c : loc) (height : Z)
| ev_runTimeout
| ev_insertEmptyNotebookCell (c : loc) (type : CellType) (direction : Direction)
| ev_deleteNotebookCell (c : loc).

Definition discard {A} (m : M A) : M unit := m ;; mret tt.

Definition exec {host : Host} (e : Event) : M unit :=
  match e with
  | ev_setDynamicHeight c height => ViewCell.setDynamicHeight c height
  | ev_hasDynamicHeight c => discard (ViewCell.hasDynamicHeight c)
  | ev_getHeight c lineHeight => discard (ViewCell.getHeight c lineHeight)
  | ev_setText c strs => ViewCell.setText c strs
  | ev_save c => ViewCell.save c
  | ev_getText c => discard (ViewCell.getText c)
  | ev_getHTML c => discard (ViewCell.getHTML c)
  | ev_getTextModel c => discard (ViewCell.getTextModel c)
  | ev_edit_buffer c lines => edit_buffer c lines
  | ev_onHide => NotebookEditor.onHide
  | ev_setInput resolved => NotebookEditor.setInput resolved
  | ev_layoutElement c height => NotebookEditor.layoutElement c height
  | ev_runTimeout => NotebookEditor.runTimeout
  | ev_insertEmptyNotebookCell c type direction =>
      NotebookEditor.insertEmptyNotebookCell c type direction
  | ev_deleteNotebookCell c => NotebookEditor.deleteNotebookCell c
  end.

(** The state after a sequence of events.  Each event is a call of its
    own: one that throws leaves its partial effects and the next one still
    runs. *)
Definition run {host : Host} (es : list Event) (s : State) : State :=
  foldl (fun s e => (exec e s).2) s es.

(** The completion and the state after each event of a sequence. *)
Fixpoint history {host : Host} (es : list Event) (s : State)
    : list (Completion unit * State) :=
  match es with
  | [] => []
  | e :: es' => exec e s :: history es' (exec e s).2
  end.

(** ** Vocabulary of the statements *)

(** Following the words of the spec: the estimate used while no measured
    height is present. *)
Definition heuristic (r : ICell) (lineHeight : Z) : Z :=
  match cell_type r with
  | markdown => 100
  | code => Z.max (Z.of_nat (length (source r)) + 1) 5 * lineHeight + 16
  end.

(** Whether an event latches a measured height on [c]. *)
Definition latches (c : loc) (e : Event) : bool :=
  match e with
  | ev_setDynamicHeight c' _ => bool_decide (c' = c)
  | _ => false
  end.

(** [preserves R m]: whatever the state and however [m] ends, the states
    before and after are related by [R]. *)
Definition preserves {A} (R : relation State) (m : M A) : Prop :=
  forall s, R s (m s).2.

(** The relation kept by every call that does not latch a height on [c]:
    the object [c] is still there, and so is its latched height. *)
Definition keeps_height (c : loc) : relation State := fun s s' =>
  forall v, vcells s !! c = Some v ->
    exists v', vcells s' !! c = Some v' /\ _dynamicHeight v' = _dynamicHeight v.

(** The state [insertEmptyNotebookCell] leaves, written out. *)
Definition inserted (c : loc) (type : CellType) (direction : Direction)
    (m : NotebookEditorModel) (v : ViewCell) (s : State) : State :=
  let r := fresh (dom (icells s)) in
  let newCell := fresh (dom (vcells s)) in
  let index := Array.indexOf (cell v) (cells (getNotebook m)) in
  let insertIndex := match direction with above => index | below => index + 1 end in
  let record := mkICell type [] [] in
  mkState
    (<[r := record]> (icells s))
    (<[newCell := mkViewCell r (bool_decide (type = markdown)) None false None None]>
       (vcells s))
    (match list_ s with
     | Some l =>
         Some (mkList (delegate l)
                 (Array.splice insertIndex 0
                    [mkRow newCell (heuristic record (_lineHeight (delegate l)))]
                    (rows l)))
     | None => None
     end)
    (Some (NotebookEditorModel.insertCell r insertIndex m))
    (Array.splice insertIndex 0 [newCell] (viewCells s))
    (timers s)
    (calls s ++ model_insertCell r insertIndex ::
       match list_ s with
       | Some _ => [list_splice insertIndex 0 [newCell]]
       | None => []
       end).

(** The state [deleteNotebookCell] leaves. *)
Definition deleted (m : NotebookEditorModel) (v : ViewCell) (s : State) : State :=
  let index := Array.indexOf (cell v) (cells (getNotebook m)) in
  mkState
    (icells s)
    (vcells s)
    (match list_ s with
     | Some l => Some (mkList (delegate l) (Array.splice index 1 [] (rows l)))
     | None => None
     end)
    (Some (NotebookEditorModel.deleteCell (cell v) m))
    (Array.splice index 1 [] (viewCells s))
    (timers s)
    (calls s ++ model_deleteCell (cell v) ::
       match list_ s with
       | Some _ => [list_splice index 1 []]
       | None => []
       end).

(** The state the deferred height update leaves. *)
Definition height_updated (c : loc) (height : Z) (m : NotebookEditorModel)
    (v : ViewCell) (s : State) : State :=
  let index := Array.indexOf (cell v) (cells (getNotebook m)) in
  mkState
    (icells s)
    (vcells s)
    (match list_ s with
     | Some l => Some (WorkbenchList.updateDynamicHeight index c height l)
     | None => None
     end)
    (model s)
    (viewCells s)
    (timers s)
    (calls s ++
       match list_ s with
       | Some _ => [list_updateDynamicHeight index c height]
       | None => []
       end).

(** A cell of [viewCells] that can be saved: the object is live and so is
    the record it wraps. *)
Definition live (s : State) (c : loc) : Prop :=
  exists v, vcells s !! c = Some v /\ is_Some (icells s !! cell v).

(** The ordering invariant: the list shows the elements of [viewCells]
    in the same order, and the [ViewCell] at each index wraps the record
    at that index of the model's [cells]. *)
Definition consistent (s : State) : Prop :=
  match model s, list_ s with
  | Some m, Some l =>
      element <$> rows l = viewCells s /\
      mapM (fun c => cell <$> vcells s !! c) (viewCells s)
        = Some (cells (getNotebook m))
  | _, _ => False
  end.

(** The record that the anchor [c] wraps is among the model's cells. *)
Definition anchor_found (c : loc) (s : State) : Prop :=
  match model s, vcells s !! c with
  | Some m, Some v => cell v ∈ cells (getNotebook m)
  | _, _ => False
  end.

(** The anchor of a structural edit. *)
Definition anchor (e : Event) : option loc :=
  match e with
  | ev_insertEmptyNotebookCell c _ _ => Some c
  | ev_deleteNotebookCell c => Some c
  | _ => None
  end.

(** Every event of the sequence is a structural edit, and its anchor is
    found in the model at the moment the edit runs. *)
Fixpoint anchors_found {host : Host} (es : list Event) (s : State) : Prop :=
  match es with
  | [] => True
  | e :: es' =>
      match anchor e with
      | Some c => anchor_found c s
      | None => False
      end /\ anchors_found es' (exec e s).2
  end.

(** ** What is kept of one object *)

(** [view_rel Q c]: the [ViewCell] at [c] is still there, and [Q] relates
    what it was to what it is. *)
Definition view_rel (Q : relation ViewCell) (c : loc) : relation State :=
  fun s s' =>
    forall v, vcells s !! c = Some v ->
      exists v', vcells s' !! c = Some v' /\ Q v v'.

(** [cell_rel Q k]: the same for the backing record at [k]. *)
Definition cell_rel (Q : relation ICell) (k : loc) : relation State :=
  fun s s' =>
    forall r, icells s !! k = Some r ->
      exists r', icells s' !! k = Some r' /\ Q r r'.

(** Editing mode is not turned on. *)
Definition editing_not_turned_on : relation ViewCell := fun v v' =>
  isEditing v' = true -> isEditing v = true.

(** The cell wraps the same record. *)
Definition same_record : relation ViewCell := fun v v' => cell v' = cell v.

(** A cached rendering that counts as present is still the cached one. *)
Definition html_kept : relation ViewCell := fun v v' =>
  truthy_string (_html v) = true -> _html v' = _html v.

(** A buffer that exists is still the buffer, with the same lines. *)
Definition buffer_kept : relation ViewCell := fun v v' =>
  forall tm, _textModel v = Some tm -> _textModel v' = Some tm.

(** The kind and the outputs of a record. *)
Definition same_kind : relation ICell := fun r r' =>
  cell_type r' = cell_type r /\ outputs r' = outputs r.

(** Events that replace the text of [c], and events that change the lines
    of its buffer. *)
Definition sets_text (c : loc) (e : Event) : bool :=
  match e with
  | ev_setText c' _ => bool_decide (c' = c)
  | _ => false
  end.

Definition edits_buffer (c : loc) (e : Event) : bool :=
  match e with
  | ev_edit_buffer c' _ => bool_decide (c' = c)
  | _ => false
  end.

(** A well-formed editor: the three orderings agree, no record stands
    twice in the model's cells, and every record of the model is in the
    store. *)
Definition well_formed (s : State) : Prop :=
  consistent s /\
  match model s with
  | Some m =>
      NoDup (cells (getNotebook m)) /\
      Forall (fun r => is_Some (icells s !! r)) (cells (getNotebook m))
  | None => False
  end.

(** The model relation of [setInput]: the model is left as it is. *)
Definition same_model : relation State := fun s s' => model s' = model s.

(** The identity [setInput] compares is kept. *)
Definition same_textModel : relation State := fun s s' =>
  textModel <$> model s' = textModel <$> model s.

Definition is_setInput (e : Event) : bool :=
  match e with
  | ev_setInput _ => true
  | _ => false
  end.

(** What [save()] leaves in the record [r] of the cell [v]. *)
Definition saved (v : ViewCell) (r : ICell) : ICell :=
  match _textModel v with
  | Some tm =>
      if isEditing v
      then set_source (map (fun str => str +:+ LF) (getLinesContent tm)) r
      else r
  | None => r
  end.

(** The calls a renderer makes on the cell [c] it is given and, for
    [c], on the editor. *)
Definition renders (c : loc) (e : Event) : bool :=
  match e with
  | ev_getTextModel c' | ev_getHTML c' | ev_setText c' _
  | ev_setDynamicHeight c' _ | ev_layoutElement c' _ => bool_decide (c' = c)
  | _ => false
  end.

(** [runs_as ok m]: whatever the state and however [m] ends, the state
    it leaves is the one left by a sequence of events that are all
    [ok]. *)
Definition runs_as {host : Host} {A} (ok : Event -> bool) (m : M A) : Prop :=
  forall s, exists es, forallb ok es = true /\ (m s).2 = run es s.

(** ** Sample data *)

Module Sample.

(** A stand-in for the services: headings are not interpreted, the text is
    wrapped in a paragraph; a buffer is created with the content as its
    only line. *)
#[local] Instance host : Host := {|
  marked text := "<p>" +:+ text +:+ "</p>";
  createModel content ext := mkTextModel [content];
|}.

(** The editor after [createEditor]: the list exists, with line height
    [18]; no input yet.  The store holds the three cell records of a document
    that is about to be opened; the second is a code cell of ten lines. *)
Definition opened : State :=
  mkState
    (<[10%nat := mkICell markdown ["# Title" +:+ LF] []]>
      (<[11%nat := mkICell code ((fun l => l +:+ LF) <$>
          ["import math"; "r = 2"; "a = math.pi * r * r"; "c = 2 * math.pi * r";
           "print(a)"; "print(c)"; "d = 2 * r"; "print(d)"; "h = r / 2";
           "print(h)"]) []]>
        (<[12%nat := mkICell code ["print(a)" +:+ LF] ["3"]]> ∅)))
    ∅
    (Some (mkList (mkDelegate 18) []))
    None
    []
    []
    [].

Definition document : NotebookEditorModel :=
  mkModel 100%nat (mkNotebook [10%nat; 11%nat; 12%nat]).

(** The editor showing [document]: [setInput] has resolved. *)
Definition shown : State := (NotebookEditor.setInput document opened).2.

End Sample.

(** * Proofs *)

(** ** Arrays *)

Section array_facts.
Context {A : Type} `{EqDecision A}.
Implicit Types (x : A) (l items : list A).

Lemma indexOf_from_notin x l i : x ∉ l -> Array.indexOf_from x l i = -1.
Proof.
  revert i. induction l as [|y l IH]; intros i Hx; simpl; [done|].
  apply not_elem_of_cons in Hx as [Hne Hx].
  case_decide; [congruence | auto].
Qed.

Lemma indexOf_from_in x l i :
  x ∈ l ->
  exists n : nat, Array.indexOf_from x l i = i + Z.of_nat n /\ l !! n = Some x.
Proof.
  revert i. induction l as [|y l IH]; intros i Hx; simpl.
  - by apply elem_of_nil in Hx.
  - case_decide as Hy.
    + exists 0%nat. split; [lia | by subst].
    + apply elem_of_cons in Hx as [->|Hx]; [done|].
      destruct (IH (i + 1) Hx) as (n & -> & Hn).
      exists (S n). split; [lia | done].
Qed.

Lemma indexOf_notin x l : x ∉ l -> Array.indexOf x l = -1.
Proof. apply indexOf_from_notin. Qed.

Lemma indexOf_in x l :
  x ∈ l -> exists n : nat, Array.indexOf x l = Z.of_nat n /\ l !! n = Some x.
Proof. intros Hx. destruct (indexOf_from_in x l 0 Hx) as (n & ? & ?). eauto. Qed.

Lemma indexOf_lookup x l (n : nat) :
  Array.indexOf x l = Z.of_nat n -> l !! n = Some x.
Proof.
  intros Hn. destruct (decide (x ∈ l)) as [Hx|Hx].
  - destruct (indexOf_in x l Hx) as (k & Hk & ?).
    assert (k = n) as <- by lia. done.
  - rewrite (indexOf_notin x l Hx) in Hn. lia.
Qed.

Lemma indexOf_from_first x l i (n : nat) :
  NoDup l -> l !! n = Some x -> Array.indexOf_from x l i = i + Z.of_nat n.
Proof.
  revert i n. induction l as [|y l IH]; intros i n Hnd Hn; [done|].
  apply NoDup_cons in Hnd as [Hy Hnd]. simpl.
  destruct n as [|n]; simpl in Hn.
  - injection Hn as ->. rewrite decide_True by done. lia.
  - rewrite decide_False.
    + rewrite (IH (i + 1) n Hnd Hn). lia.
    + intros ->. apply Hy. by eapply list_elem_of_lookup_2.
Qed.

(** Where no record occurs twice, the index [indexOf] finds is the index
    at which the record stands. *)
Lemma indexOf_NoDup x l (n : nat) :
  NoDup l -> l !! n = Some x -> Array.indexOf x l = Z.of_nat n.
Proof. intros. unfold Array.indexOf. by rewrite (indexOf_from_first x l 0 n). Qed.

Lemma splice_insert_at (n : nat) items l :
  (n <= length l)%nat ->
  Array.splice (Z.of_nat n) 0 items l = take n l ++ items ++ drop n l.
Proof.
  intros Hn. unfold Array.splice.
  assert ((Z.of_nat n <? 0) = false) as -> by lia.
  replace (Z.min (Z.of_nat n) (Z.of_nat (length l))) with (Z.of_nat n) by lia.
  replace (Z.min (Z.max 0 0) (Z.of_nat (length l) - Z.of_nat n)) with 0 by lia.
  by rewrite Z.add_0_r, Nat2Z.id.
Qed.

Lemma splice_delete_at (n : nat) l :
  (n < length l)%nat ->
  Array.splice (Z.of_nat n) 1 [] l = take n l ++ drop (S n) l.
Proof.
  intros Hn. unfold Array.splice.
  assert ((Z.of_nat n <? 0) = false) as -> by lia.
  replace (Z.min (Z.of_nat n) (Z.of_nat (length l))) with (Z.of_nat n) by lia.
  replace (Z.min (Z.max 1 0) (Z.of_nat (length l) - Z.of_nat n)) with 1 by lia.
  rewrite Nat2Z.id. simpl. do 2 f_equal. lia.
Qed.

Lemma splice_last_delete l :
  Array.splice (-1) 1 [] l = take (length l - 1) l.
Proof.
  unfold Array.splice. change (-1 <? 0) with true. cbv iota.
  set (start := Z.max (Z.of_nat (length l) + -1) 0).
  replace (Z.to_nat start) with (length l - 1)%nat by lia.
  replace (Z.to_nat (start + Z.min (Z.max 1 0) (Z.of_nat (length l) - start)))
    with (length l) by lia.
  by rewrite drop_all, !app_nil_r.
Qed.

Lemma splice_last_insert items l :
  Array.splice (-1) 0 items l =
  take (length l - 1) l ++ items ++ drop (length l - 1) l.
Proof.
  unfold Array.splice. change (-1 <? 0) with true. cbv iota.
  replace (Z.min (Z.max 0 0) _) with 0 by lia.
  rewrite Z.add_0_r.
  replace (Z.to_nat (Z.max (Z.of_nat (length l) + -1) 0))
    with (length l - 1)%nat by lia.
  done.
Qed.

End array_facts.

Lemma splice_fmap {A B} (f : A -> B) i d (items l : list A) :
  f <$> Array.splice i d items l = Array.splice i d (f <$> items) (f <$> l).
Proof.
  unfold Array.splice.
  by rewrite !fmap_app, fmap_take, fmap_drop, !length_fmap.
Qed.

Lemma splice_Forall2 {A B} (R : A -> B -> Prop) i d items1 items2 l1 l2 :
  Forall2 R l1 l2 -> Forall2 R items1 items2 ->
  Forall2 R (Array.splice i d items1 l1) (Array.splice i d items2 l2).
Proof.
  intros Hl Hi. unfold Array.splice.
  rewrite (Forall2_length _ _ _ Hl).
  repeat apply Forall2_app; auto using Forall2_take, Forall2_drop.
Qed.

(** ** Running the monad *)

Lemma bind_eq {A B} (m : M A) (f : A -> M B) s :
  (m ≫= f) s =
  match m s with
  | (Normal a, s') => f a s'
  | (Throw e, s') => (Throw e, s')
  end.
Proof. reflexivity. Qed.

Lemma bind_normal {A B} (m : M A) (f : A -> M B) s a s' :
  m s = (Normal a, s') -> (m ≫= f) s = f a s'.
Proof. intros H. by rewrite bind_eq, H. Qed.

Lemma ret_eq {A} (a : A) s : mret (M := M) a s = (Normal a, s).
Proof. reflexivity. Qed.

Lemma get_eq s : get s = (Normal s, s).
Proof. reflexivity. Qed.

Lemma modify_eq f s : modify f s = (Normal tt, f s).
Proof. reflexivity. Qed.

Lemma log_eq c s : log c s = (Normal tt, set_calls (calls s ++ [c]) s).
Proof. reflexivity. Qed.

Lemma deref_view_eq s c v :
  vcells s !! c = Some v -> deref_view c s = (Normal v, s).
Proof. intros H. unfold deref_view. by rewrite H. Qed.

Lemma deref_cell_eq s c r :
  icells s !! c = Some r -> deref_cell c s = (Normal r, s).
Proof. intros H. unfold deref_cell. by rewrite H. Qed.

Lemma update_view_eq s c v f :
  vcells s !! c = Some v ->
  update_view c f s = (Normal tt, set_vcells <[c := f v]> s).
Proof. intros H. unfold update_view. by rewrite (bind_normal _ _ _ _ _ (deref_view_eq _ _ _ H)). Qed.

Lemma update_cell_eq s c r f :
  icells s !! c = Some r ->
  update_cell c f s = (Normal tt, set_icells <[c := f r]> s).
Proof. intros H. unfold update_cell. by rewrite (bind_normal _ _ _ _ _ (deref_cell_eq _ _ _ H)). Qed.

(** Symbolic execution of a method on a state whose relevant lookups are
    among the hypotheses. *)
Ltac lookups :=
  repeat first
    [ rewrite lookup_insert_eq
    | rewrite lookup_insert_ne by done
    | match goal with
      | H : ?m !! ?k = Some _ |- context [?m !! ?k] => rewrite H
      end ].

Ltac exec_step :=
  first
    [ rewrite bind_eq
    | rewrite ret_eq
    | rewrite get_eq
    | rewrite modify_eq
    | rewrite log_eq
    | erewrite deref_view_eq by (simpl; lookups; reflexivity)
    | erewrite deref_cell_eq by (simpl; lookups; reflexivity)
    | erewrite update_view_eq by (simpl; lookups; reflexivity)
    | erewrite update_cell_eq by (simpl; lookups; reflexivity) ].

Ltac proj_state :=
  cbn [icells vcells list_ model viewCells timers calls
       set_icells set_vcells set_list set_model set_viewCells set_timers set_calls
       cell isEditing _textModel _mdRenderer _html _dynamicHeight
       set_isEditing set_textModel set_mdRenderer set_html set_dynamicHeight
       cell_type source outputs set_source fst snd].

Ltac state_eq :=
  unfold set_icells, set_vcells, set_list, set_model, set_viewCells,
    set_timers, set_calls;
  cbn [icells vcells list_ model viewCells timers calls];
  rewrite <- ?app_assoc; try reflexivity.

Ltac exec_all := proj_state; repeat (exec_step; proj_state).

(** ** The height of one cell *)

Lemma getHeight_eq s c v r lineHeight :
  vcells s !! c = Some v -> icells s !! cell v = Some r ->
  ViewCell.getHeight c lineHeight s =
  (Normal (if truthy_number (_dynamicHeight v)
           then default 0 (_dynamicHeight v)
           else heuristic r lineHeight), s).
Proof.
  intros Hv Hr. unfold ViewCell.getHeight, ViewCell.cellType, ViewCell.lineCount, heuristic.
  exec_all. destruct (truthy_number _); [done|].
  exec_all. destruct (cell_type r); [done|]. by exec_all.
Qed.

Lemma hasDynamicHeight_eq s c v :
  vcells s !! c = Some v ->
  ViewCell.hasDynamicHeight c s =
  (Normal (match _dynamicHeight v with Some _ => false | None => true end), s).
Proof.
  intros Hv. unfold ViewCell.hasDynamicHeight. exec_all.
  by destruct (_dynamicHeight v).
Qed.

Lemma setDynamicHeight_eq s c v height :
  vcells s !! c = Some v ->
  ViewCell.setDynamicHeight c height s =
  (Normal tt, set_vcells <[c := set_dynamicHeight (Some height) v]> s).
Proof. apply update_view_eq. Qed.

Lemma getText_eq s c v r :
  vcells s !! c = Some v -> icells s !! cell v = Some r ->
  ViewCell.getText c s = (Normal (Array.join (source r)), s).
Proof. intros Hv Hr. unfold ViewCell.getText. by exec_all. Qed.

Lemma setText_eq s c v r strs :
  vcells s !! c = Some v -> icells s !! cell v = Some r ->
  ViewCell.setText c strs s =
  (Normal tt,
   set_vcells <[c := set_html None v]>
     (set_icells <[cell v := set_source (map (fun str => str +:+ LF) strs) r]> s)).
Proof. intros Hv Hr. unfold ViewCell.setText. by exec_all. Qed.

Lemma save_eq s c v r :
  vcells s !! c = Some v -> icells s !! cell v = Some r ->
  ViewCell.save c s =
  (Normal tt,
   match _textModel v with
   | Some tm =>
       if isEditing v
       then set_icells
              <[cell v := set_source (map (fun str => str +:+ LF) (getLinesContent tm)) r]> s
       else s
   | None => s
   end).
Proof.
  intros Hv Hr. unfold ViewCell.save. exec_all.
  destruct (_textModel v); [|done]. destruct (isEditing v); [|done]. by exec_all.
Qed.

(** ** What a call leaves alone *)

Section preserves.
Context (R : relation State) `{!PreOrder R}.

Lemma preserves_ret {A} (a : A) : preserves R (mret a).
Proof. intros s. simpl. reflexivity. Qed.

Lemma preserves_throw {A} e : preserves R (throw (A := A) e).
Proof. intros s. simpl. reflexivity. Qed.

Lemma preserves_get : preserves R get.
Proof. intros s. simpl. reflexivity. Qed.

Lemma preserves_deref_view c : preserves R (deref_view c).
Proof. intros s. unfold deref_view. destruct (vcells s !! c); simpl; reflexivity. Qed.

Lemma preserves_deref_cell c : preserves R (deref_cell c).
Proof. intros s. unfold deref_cell. destruct (icells s !! c); simpl; reflexivity. Qed.

Lemma preserves_bind {A B} (m : M A) (f : A -> M B) :
  preserves R m -> (forall a, preserves R (f a)) -> preserves R (m ≫= f).
Proof.
  intros Hm Hf s. rewrite bind_eq. specialize (Hm s).
  destruct (m s) as [[a|e] s']; simpl in *; [|done].
  etransitivity; [exact Hm | apply Hf].
Qed.

Lemma preserves_forEach {A} (f : A -> M unit) l :
  (forall x, preserves R (f x)) -> preserves R (forEach f l).
Proof.
  intros Hf. induction l as [|x l IH]; simpl.
  - apply preserves_ret.
  - apply preserves_bind; auto.
Qed.

Lemma preserves_mapM {A B} (f : A -> M B) l :
  (forall x, preserves R (f x)) -> preserves R (mapM_ f l).
Proof.
  intros Hf. induction l as [|x l IH]; simpl.
  - apply preserves_ret.
  - apply preserves_bind; [auto|]. intros y.
    apply preserves_bind; [auto|]. intros ys. apply preserves_ret.
Qed.

Lemma preserves_modify f : (forall s, R s (f s)) -> preserves R (modify f).
Proof. intros Hf s. apply Hf. Qed.

End preserves.

#[local] Instance keeps_height_preorder c : PreOrder (keeps_height c).
Proof.
  split.
  - intros s v Hv. eauto.
  - intros s1 s2 s3 H12 H23 v Hv.
    destruct (H12 v Hv) as (v2 & Hv2 & E2).
    destruct (H23 v2 Hv2) as (v3 & Hv3 & E3).
    exists v3. split; [done | congruence].
Qed.

Lemma keeps_height_same_vcells c s s' :
  vcells s' = vcells s -> keeps_height c s s'.
Proof. intros E v Hv. rewrite E. eauto. Qed.

Lemma keeps_height_update_view c this f :
  (this = c -> forall v, _dynamicHeight (f v) = _dynamicHeight v) ->
  preserves (keeps_height c) (update_view this f).
Proof.
  intros Hf s. unfold update_view. rewrite bind_eq. unfold deref_view.
  destruct (vcells s !! this) as [w|] eqn:Hw; simpl; [|reflexivity].
  intros v Hv. unfold modify. simpl. destruct (decide (this = c)) as [->|Hne].
  - rewrite lookup_insert_eq. assert (w = v) as -> by congruence. eauto.
  - rewrite lookup_insert_ne by done. eauto.
Qed.

Lemma keeps_height_new c r editing :
  preserves (keeps_height c) (ViewCell.new r editing).
Proof.
  intros s v Hv. unfold ViewCell.new. simpl.
  exists v. split; [|done]. rewrite lookup_insert_ne; [done|].
  intros E. apply (is_fresh (dom (vcells s))). rewrite E.
  apply elem_of_dom. eauto.
Qed.

(** The structural part of such proofs. *)
Ltac preserves_step :=
  first
    [ apply keeps_height_new
    | apply keeps_height_update_view; done
    | apply preserves_modify; intros ?; apply keeps_height_same_vcells; reflexivity
    | apply preserves_ret; tc_solve
    | apply preserves_throw; tc_solve
    | apply preserves_get; tc_solve
    | apply preserves_deref_view; tc_solve
    | apply preserves_deref_cell; tc_solve
    | apply preserves_forEach; [tc_solve | intros ?]
    | apply preserves_mapM; [tc_solve | intros ?]
    | apply preserves_bind; [tc_solve | | intros ?]
    | match goal with
      | |- preserves _ (match ?x with _ => _ end) => destruct x
      end ].

Ltac preserves_all := repeat preserves_step.

Section keeps_height.
Context {host : Host} (c : loc).

Lemma keeps_height_getHeight this h :
  preserves (keeps_height c) (ViewCell.getHeight this h).
Proof. unfold ViewCell.getHeight, ViewCell.cellType, ViewCell.lineCount. preserves_all. Qed.

Lemma keeps_height_save this : preserves (keeps_height c) (ViewCell.save this).
Proof. unfold ViewCell.save, update_cell. preserves_all. Qed.

Lemma keeps_height_on_list call f :
  (forall l, preserves (keeps_height c) (f l)) ->
  preserves (keeps_height c) (NotebookEditor.on_list call f).
Proof. intros Hf. unfold NotebookEditor.on_list, log. preserves_all. apply Hf. Qed.

Lemma keeps_height_splice start deleteCount elements l :
  preserves (keeps_height c) (WorkbenchList.splice start deleteCount elements l).
Proof.
  unfold WorkbenchList.splice, NotebookCellListDelegate.getHeight.
  preserves_all.
Qed.

Lemma keeps_height_exec e :
  latches c e = false -> preserves (keeps_height c) (exec e).
Proof.
  intros He. destruct e; simpl in *;
    unfold discard, ViewCell.setDynamicHeight, ViewCell.hasDynamicHeight,
      ViewCell.setText, ViewCell.getText, ViewCell.getHTML, ViewCell.getMDRenderer,
      ViewCell.getTextModel, ViewCell.cellType, edit_buffer, update_cell,
      NotebookEditor.onHide, NotebookEditor.setInput, NotebookEditor.layoutElement,
      NotebookEditor.runTimeout, NotebookEditor.layoutElement_timeout,
      NotebookEditor.insertEmptyNotebookCell, NotebookEditor.deleteNotebookCell,
      NotebookEditor.on_model, NotebookEditor.the_model, NotebookEditor.new_cell, log.
  all: try (apply keeps_height_update_view; intros ->;
            by rewrite bool_decide_eq_false in He).
  all: repeat first
    [ apply keeps_height_getHeight | apply keeps_height_save
    | apply keeps_height_on_list; intros ?
    | apply keeps_height_splice
    | preserves_step ].
Qed.

Lemma keeps_height_run es s :
  forallb (fun e => negb (latches c e)) es = true ->
  keeps_height c s (run es s).
Proof.
  revert s. induction es as [|e es IH]; intros s Hes; simpl in *.
  - reflexivity.
  - apply andb_prop in Hes as [He Hes]. apply negb_true_iff in He.
    etransitivity; [apply (keeps_height_exec e He s) | apply IH, Hes].
Qed.

End keeps_height.

(** ** The structural edits, executed *)

Lemma fresh_view_ne s c v :
  vcells s !! c = Some v -> fresh (dom (vcells s)) ≠ c.
Proof.
  intros Hv E. apply (is_fresh (dom (vcells s))). rewrite E.
  apply elem_of_dom. eauto.
Qed.

Lemma the_model_eq s m :
  model s = Some m -> NotebookEditor.the_model s = (Normal m, s).
Proof. intros H. unfold NotebookEditor.the_model. rewrite bind_eq, get_eq. by rewrite H. Qed.

Lemma insertEmptyNotebookCell_eq s c type direction m v :
  model s = Some m -> vcells s !! c = Some v ->
  NotebookEditor.insertEmptyNotebookCell c type direction s =
  (Normal tt, inserted c type direction m v s).
Proof.
  intros Hm Hv. pose proof (fresh_view_ne s c v Hv) as Hne.
  unfold NotebookEditor.insertEmptyNotebookCell, NotebookEditor.new_cell, ViewCell.new,
    NotebookEditor.on_model, NotebookEditor.on_list, inserted.
  exec_all.
  erewrite the_model_eq by (simpl; eassumption). cbn beta iota.
  exec_all.
  erewrite the_model_eq by (simpl; eassumption). cbn beta iota.
  exec_all.
  destruct (list_ s) as [l|] eqn:Hl; cbn beta iota.
  - unfold WorkbenchList.splice, NotebookCellListDelegate.getHeight. simpl mapM_.
    exec_all.
    erewrite getHeight_eq by (simpl; lookups; reflexivity). cbn beta iota.
    exec_all. unfold heuristic. state_eq.
  - exec_all. state_eq. by rewrite Hl.
Qed.

Lemma deleteNotebookCell_eq s c m v :
  model s = Some m -> vcells s !! c = Some v ->
  NotebookEditor.deleteNotebookCell c s = (Normal tt, deleted m v s).
Proof.
  intros Hm Hv.
  unfold NotebookEditor.deleteNotebookCell, NotebookEditor.on_model,
    NotebookEditor.on_list, deleted.
  erewrite bind_normal by (apply the_model_eq, Hm).
  exec_all.
  erewrite the_model_eq by (simpl; eassumption). cbn beta iota.
  exec_all.
  destruct (list_ s) as [l|] eqn:Hl; cbn beta iota.
  - unfold WorkbenchList.splice. simpl mapM_. exec_all. state_eq.
  - exec_all. state_eq. by rewrite Hl.
Qed.

Lemma layoutElement_timeout_eq s c height m v :
  model s = Some m -> vcells s !! c = Some v ->
  NotebookEditor.layoutElement_timeout c height s =
  (Normal tt, height_updated c height m v s).
Proof.
  intros Hm Hv.
  unfold NotebookEditor.layoutElement_timeout, NotebookEditor.on_list, height_updated.
  erewrite bind_normal by (apply the_model_eq, Hm).
  exec_all.
  destruct (list_ s) as [l|] eqn:Hl; cbn beta iota.
  - exec_all. state_eq.
  - exec_all. destruct s; simpl in *. by rewrite Hl, app_nil_r.
Qed.

Lemma updateDynamicHeight_not_found c height l :
  WorkbenchList.updateDynamicHeight (-1) c height l = l.
Proof. reflexivity. Qed.

(** [onHide], with every element of [viewCells] a live object. *)
Lemma forEach_isEditing_false l s :
  Forall (fun c => is_Some (vcells s !! c)) l ->
  exists vs,
    forEach (fun c => update_view c (set_isEditing false)) l s
      = (Normal tt, set_vcells (fun _ => vs) s) /\
    forall c, vs !! c =
      (if decide (c ∈ l) then set_isEditing false else id) <$> vcells s !! c.
Proof.
  revert s. induction l as [|x l IH]; intros s Hl.
  - exists (vcells s). split; [by destruct s|].
    intros c. rewrite decide_False by apply not_elem_of_nil.
    by destruct (vcells s !! c).
  - apply Forall_cons in Hl as [[v Hv] Hl]. simpl.
    rewrite bind_eq. rewrite (update_view_eq _ _ _ _ Hv).
    destruct (IH (set_vcells <[x := set_isEditing false v]> s)) as (vs & Hrun & Hvs).
    { eapply Forall_impl; [exact Hl|]. intros c Hc. simpl.
      destruct (decide (x = c)) as [->|Hne].
      - rewrite lookup_insert_eq. eauto.
      - by rewrite lookup_insert_ne. }
    exists vs. split; [exact Hrun|].
    intros c. rewrite Hvs. simpl.
    destruct (decide (x = c)) as [->|Hne].
    + rewrite lookup_insert_eq, Hv.
      rewrite (decide_True (P := c ∈ c :: l)) by left.
      by case_decide.
    + rewrite lookup_insert_ne by done.
      destruct (decide (c ∈ l)) as [Hc|Hc].
      * by rewrite decide_True by (by right).
      * rewrite decide_False; [done|].
        intros [->|?]%elem_of_cons; done.
Qed.

(** * The claims *)

(** ** Heights: C2, C3 and C10 *)

Lemma latched_after {host : Host} c es s v :
  vcells s !! c = Some v ->
  exists v', vcells (run es s) !! c = Some v' /\
    (match _dynamicHeight v' with Some _ => false | None => true end) =
    (match _dynamicHeight v with Some _ => false | None => true end)
      && negb (existsb (latches c) es).
Proof.
  revert s v. induction es as [|e es IH]; intros s v Hv.
  - exists v. split; [done|]. simpl. by rewrite andb_true_r.
  - simpl. destruct (latches c e) eqn:He.
    + destruct e; try discriminate. simpl in He.
      apply bool_decide_eq_true in He as ->.
      edestruct (IH (exec (ev_setDynamicHeight c height) s).2) as (v' & Hv' & E).
      { simpl. rewrite (setDynamicHeight_eq _ _ _ _ Hv). simpl.
        apply lookup_insert_eq. }
      exists v'. split; [exact Hv'|]. rewrite E. simpl. by rewrite andb_false_r.
    + destruct (keeps_height_exec c e He s v Hv) as (v1 & Hv1 & E1).
      destruct (IH _ _ Hv1) as (v' & Hv' & E).
      exists v'. split; [exact Hv'|]. by rewrite E, E1.
Qed.

(** C2.  While no measured height is latched, [getHeight(h)] is the
    estimate: [100] for a markdown cell, [max(lineCount + 1, 5) * h + 16]
    for a code cell, which is [214] for ten lines and [h = 18]; it changes
    nothing.  Once [setDynamicHeight(300)] has run, [getHeight] returns
    [300] for every [h], now and after any further events that do not
    latch another height on the cell. *)
Theorem height_latch_law {host : Host} (s : State) (c : loc) (v : ViewCell) (r : ICell) :
  vcells s !! c = Some v -> icells s !! cell v = Some r ->
  (_dynamicHeight v = None ->
   (forall h, ViewCell.getHeight c h s =
      (Normal match cell_type r with
              | markdown => 100
              | code => Z.max (Z.of_nat (length (source r)) + 1) 5 * h + 16
              end, s)) /\
   (cell_type r = code -> length (source r) = 10%nat ->
    ViewCell.getHeight c 18 s = (Normal 214, s))) /\
  (forall es h,
     forallb (fun e => negb (latches c e)) es = true ->
     let s' := run es (ViewCell.setDynamicHeight c 300 s).2 in
     ViewCell.getHeight c h s' = (Normal 300, s')).
Proof.
  intros Hv Hr. split.
  - intros Hd.
    assert (forall h, ViewCell.getHeight c h s = (Normal (heuristic r h), s)) as Hg.
    { intros h. rewrite (getHeight_eq _ _ _ _ _ Hv Hr). by rewrite Hd. }
    split; [exact Hg|]. intros Ht Hn. rewrite Hg. unfold heuristic.
    by rewrite Ht, Hn.
  - intros es h Hes s'. subst s'.
    rewrite (setDynamicHeight_eq _ _ _ _ Hv). cbn [snd].
    set (s1 := set_vcells _ s).
    destruct (keeps_height_run c es s1 Hes (set_dynamicHeight (Some 300) v))
      as (v' & Hv' & Hd').
    { apply lookup_insert_eq. }
    unfold ViewCell.getHeight. rewrite bind_eq, (deref_view_eq _ _ _ Hv').
    cbn beta iota. by rewrite Hd'.
Qed.

Lemma height_latch_law_witness :
  ViewCell.getHeight 1%nat 18 Sample.shown = (Normal 214, Sample.shown) /\
  (let s' := run (host := Sample.host)
               [ev_setText 1%nat ["x = 0"]; ev_getHeight 1%nat 21; ev_onHide]
               (ViewCell.setDynamicHeight 1%nat 300 Sample.shown).2 in
   ViewCell.getHeight 1%nat 21 s' = (Normal 300, s')).
Proof.
  pose proof (height_latch_law (host := Sample.host) Sample.shown 1%nat
    (mkViewCell 11%nat false None false None None)
    (mkICell code ((fun l => l +:+ LF) <$>
          ["import math"; "r = 2"; "a = math.pi * r * r"; "c = 2 * math.pi * r";
           "print(a)"; "print(c)"; "d = 2 * r"; "print(d)"; "h = r / 2";
           "print(h)"]) [])
    eq_refl eq_refl) as [Hbefore Hafter].
  split.
  - apply (Hbefore eq_refl); reflexivity.
  - apply Hafter. reflexivity.
Defined.

(** C3.  For a cell with no height latched yet, [hasDynamicHeight] after
    any sequence of events is [true] exactly when none of them was a
    [setDynamicHeight] on that cell; and from any state in which it is
    [false], it is [false] after every further sequence of events,
    [setText] included. *)
Theorem pending_measurement_is_permanent {host : Host} (s : State) (c : loc) (v : ViewCell) :
  vcells s !! c = Some v ->
  (_dynamicHeight v = None ->
   forall es, ViewCell.hasDynamicHeight c (run es s) =
     (Normal (negb (existsb (latches c) es)), run es s)) /\
  (ViewCell.hasDynamicHeight c s = (Normal false, s) ->
   forall es, ViewCell.hasDynamicHeight c (run es s) = (Normal false, run es s)).
Proof.
  intros Hv. split.
  - intros Hd es. destruct (latched_after c es s v Hv) as (v' & Hv' & E).
    rewrite (hasDynamicHeight_eq _ _ _ Hv'), E, Hd. done.
  - intros Hf es. rewrite (hasDynamicHeight_eq _ _ _ Hv) in Hf.
    destruct (latched_after c es s v Hv) as (v' & Hv' & E).
    rewrite (hasDynamicHeight_eq _ _ _ Hv'), E.
    destruct (_dynamicHeight v); [done | discriminate].
Qed.

Lemma pending_measurement_is_permanent_witness :
  ViewCell.hasDynamicHeight 2%nat
    (run (host := Sample.host) [ev_getHeight 2%nat 18; ev_setText 2%nat ["print(b)"]] Sample.shown)
  = (Normal true,
     run (host := Sample.host) [ev_getHeight 2%nat 18; ev_setText 2%nat ["print(b)"]] Sample.shown) /\
  ViewCell.hasDynamicHeight 2%nat
    (run (host := Sample.host)
       [ev_setDynamicHeight 2%nat 190; ev_setText 2%nat ["print(b)"; "print(c)"]; ev_onHide]
       Sample.shown)
  = (Normal false,
     run (host := Sample.host)
       [ev_setDynamicHeight 2%nat 190; ev_setText 2%nat ["print(b)"; "print(c)"]; ev_onHide]
       Sample.shown).
Proof.
  pose proof (pending_measurement_is_permanent (host := Sample.host) Sample.shown 2%nat
    (mkViewCell 12%nat false None false None None) eq_refl) as [Hfresh _].
  split; apply (Hfresh eq_refl).
Defined.

(** C10.  After [setDynamicHeight(0)] the cell reports no pending
    measurement, and [getHeight(h)] is still the estimate, not [0]. *)
Theorem zero_height_is_latched_but_ignored (s : State) (c : loc) (v : ViewCell)
    (r : ICell) (h : Z) :
  vcells s !! c = Some v -> icells s !! cell v = Some r ->
  let s1 := (ViewCell.setDynamicHeight c 0 s).2 in
  ViewCell.hasDynamicHeight c s1 = (Normal false, s1) /\
  ViewCell.getHeight c h s1 =
    (Normal match cell_type r with
            | markdown => 100
            | code => Z.max (Z.of_nat (length (source r)) + 1) 5 * h + 16
            end, s1).
Proof.
  intros Hv Hr s1. subst s1. rewrite (setDynamicHeight_eq _ _ _ _ Hv). cbn [snd].
  set (s1 := set_vcells _ s).
  assert (vcells s1 !! c = Some (set_dynamicHeight (Some 0) v)) as Hv1
    by apply lookup_insert_eq.
  split.
  - by rewrite (hasDynamicHeight_eq _ _ _ Hv1).
  - by rewrite (getHeight_eq _ _ _ r h Hv1 Hr).
Qed.

Lemma zero_height_is_latched_but_ignored_witness :
  let s1 := (ViewCell.setDynamicHeight 2%nat 0 Sample.shown).2 in
  ViewCell.hasDynamicHeight 2%nat s1 = (Normal false, s1) /\
  ViewCell.getHeight 2%nat 18 s1 = (Normal 106, s1).
Proof.
  apply (zero_height_is_latched_but_ignored Sample.shown 2%nat
    (mkViewCell 12%nat false None false None None)
    (mkICell code ["print(a)" +:+ LF] ["3"]) 18); reflexivity.
Defined.

(** ** Text: C7 and C8 *)

(** C7.  On a markdown cell, [setText(L)] clears the cached HTML and
    leaves the latched height as it was; the text of the cell is then the
    lines of [L], each with its terminator, and the next [getHTML()]
    returns the rendering of exactly that text. *)
Theorem setText_invalidates_html {host : Host} (s : State) (c : loc) (v : ViewCell)
    (r : ICell) (L : list string) :
  vcells s !! c = Some v -> icells s !! cell v = Some r ->
  cell_type r = markdown ->
  let s1 := (ViewCell.setText c L s).2 in
  let text := Array.join (map (fun str => str +:+ LF) L) in
  vcells s1 !! c = Some (set_html None v) /\
  _dynamicHeight (set_html None v) = _dynamicHeight v /\
  ViewCell.getText c s1 = (Normal text, s1) /\
  (ViewCell.getHTML c s1).1 = Normal (Some (marked text)).
Proof.
  intros Hv Hr Ht s1 text. subst s1.
  rewrite (setText_eq _ _ _ _ _ Hv Hr). cbn [snd].
  set (s1 := set_vcells _ _).
  assert (vcells s1 !! c = Some (set_html None v)) as Hv1 by apply lookup_insert_eq.
  assert (icells s1 !! cell (set_html None v)
          = Some (set_source (map (fun str => str +:+ LF) L) r)) as Hr1
    by apply lookup_insert_eq.
  repeat split; [exact Hv1 | |].
  - by rewrite (getText_eq _ _ _ _ Hv1 Hr1).
  - unfold ViewCell.getHTML, ViewCell.cellType, ViewCell.getMDRenderer.
    exec_all. rewrite Ht. exec_all. cbn [truthy_string]. exec_all.
    destruct (_mdRenderer v) eqn:Hm; exec_all.
    + rewrite (getText_eq _ _ _ _ Hv1 Hr1). exec_all. done.
    + erewrite getText_eq by first [apply lookup_insert_eq | exact Hr1].
      exec_all. done.
Qed.

Lemma setText_invalidates_html_witness :
  let s0 := (ViewCell.getHTML (host := Sample.host) 0%nat Sample.shown).2 in
  let s1 := (ViewCell.setText 0%nat ["# Other"; "text"] s0).2 in
  (ViewCell.getHTML (host := Sample.host) 0%nat s0).1
    = Normal (Some ("<p># Title" +:+ LF +:+ "</p>")) /\
  (ViewCell.getHTML (host := Sample.host) 0%nat s1).1
    = Normal (Some ("<p># Other" +:+ LF +:+ "text" +:+ LF +:+ "</p>")).
Proof.
  split; [reflexivity|].
  apply (setText_invalidates_html (host := Sample.host)
    (ViewCell.getHTML (host := Sample.host) 0%nat Sample.shown).2 0%nat
    (mkViewCell 10%nat false None true (Some ("<p># Title" +:+ LF +:+ "</p>")) None)
    (mkICell markdown ["# Title" +:+ LF] [])
    ["# Other"; "text"]); reflexivity.
Defined.

(** C8.  On a cell in editing mode that has a text buffer, [save()]
    stores the lines of the buffer, each followed by the terminator, as
    the source of the backing record, and leaves the cell object, buffer
    included, as it was; [getText()] then returns those lines joined. *)
Theorem save_getText_roundtrip (s : State) (c : loc) (v : ViewCell) (r : ICell)
    (tm : ITextModel) :
  vcells s !! c = Some v -> icells s !! cell v = Some r ->
  isEditing v = true -> _textModel v = Some tm ->
  let s1 := (ViewCell.save c s).2 in
  let stored := map (fun str => str +:+ LF) (getLinesContent tm) in
  ViewCell.save c s = (Normal tt, s1) /\
  icells s1 !! cell v = Some (set_source stored r) /\
  vcells s1 = vcells s /\
  ViewCell.getText c s1 = (Normal (Array.join stored), s1).
Proof.
  intros Hv Hr He Htm s1 stored. subst s1.
  rewrite (save_eq _ _ _ _ Hv Hr), Htm, He. cbn [snd].
  set (s1 := set_icells _ s).
  assert (icells s1 !! cell v = Some (set_source stored r)) as Hr1
    by apply lookup_insert_eq.
  repeat split; [exact Hr1|].
  by rewrite (getText_eq s1 c v _ Hv Hr1).
Qed.

Lemma save_getText_roundtrip_witness :
  let s := run (host := Sample.host)
             [ev_insertEmptyNotebookCell 0%nat markdown below;
              ev_getTextModel 3%nat; ev_edit_buffer 3%nat ["# Notes"; "first"]]
             Sample.shown in
  ViewCell.getText 3%nat s = (Normal EmptyString, s) /\
  ViewCell.getText 3%nat (ViewCell.save 3%nat s).2
    = (Normal ("# Notes" +:+ LF +:+ "first" +:+ LF), (ViewCell.save 3%nat s).2) /\
  vcells (ViewCell.save 3%nat s).2 = vcells s.
Proof.
  intros s.
  destruct (save_getText_roundtrip s 3%nat
    (mkViewCell 13%nat true (Some (mkTextModel ["# Notes"; "first"])) false None None)
    (mkICell markdown [] [])
    (mkTextModel ["# Notes"; "first"]))
    as (_ & _ & Hcell & Htext); try (vm_compute; reflexivity).
  split; [vm_compute; reflexivity|]. split; [exact Htext | exact Hcell].
Defined.

(** ** Hiding the editor: C9 *)

(** C9, as claimed, fails: [onHide] never calls [save].  A markdown cell
    inserted below the first one is in editing mode; its buffer is created
    and the user types two words.  [save()] on that cell would store the
    line; [onHide()] leaves the source empty, and since it also turns
    editing off, a later [save()] stores nothing either. *)
Lemma onHide_does_not_save :
  let s := run (host := Sample.host)
             [ev_insertEmptyNotebookCell 0%nat markdown below;
              ev_getTextModel 3%nat; ev_edit_buffer 3%nat ["hello world"]]
             Sample.shown in
  viewCells s = [0; 3; 1; 2]%nat /\
  source <$> icells (ViewCell.save 3%nat s).2 !! 13%nat
    = Some ["hello world" +:+ LF] /\
  NotebookEditor.onHide s = (Normal tt, (NotebookEditor.onHide s).2) /\
  source <$> icells (NotebookEditor.onHide s).2 !! 13%nat = Some [] /\
  source <$> icells (ViewCell.save 3%nat (NotebookEditor.onHide s).2).2 !! 13%nat
    = Some [].
Proof. vm_compute. repeat split; reflexivity. Qed.

(** C9, amended.  [onHide()] completes normally and turns off the editing
    mode of every cell of [viewCells]; it changes nothing else: no source
    is written, every buffer and every other field of every cell stays, as
    do the model, the list and the pending timers, and no collaborator is
    called. *)
Theorem onHide_turns_off_editing (s : State) :
  Forall (fun c => is_Some (vcells s !! c)) (viewCells s) ->
  exists vs,
    NotebookEditor.onHide s =
      (Normal tt,
       mkState (icells s) vs (list_ s) (model s) (viewCells s) (timers s) (calls s)) /\
    forall c, vs !! c =
      (if decide (c ∈ viewCells s) then set_isEditing false else id)
        <$> vcells s !! c.
Proof.
  intros Hall. destruct (forEach_isEditing_false _ s Hall) as (vs & Hrun & Hvs).
  exists vs. split; [|exact Hvs].
  unfold NotebookEditor.onHide. rewrite bind_eq, get_eq. exact Hrun.
Qed.

Lemma onHide_turns_off_editing_witness :
  let s := run (host := Sample.host)
             [ev_insertEmptyNotebookCell 0%nat markdown below;
              ev_getTextModel 3%nat; ev_edit_buffer 3%nat ["hello world"]]
             Sample.shown in
  isEditing <$> vcells s !! 3%nat = Some true /\
  exists vs,
    NotebookEditor.onHide s =
      (Normal tt,
       mkState (icells s) vs (list_ s) (model s) (viewCells s) (timers s) (calls s)) /\
    forall c, vs !! c =
      (if decide (c ∈ viewCells s) then set_isEditing false else id)
        <$> vcells s !! c.
Proof.
  intros s. split; [vm_compute; reflexivity|].
  apply (onHide_turns_off_editing s).
  vm_compute. repeat constructor; eexists; reflexivity.
Defined.

(** ** The deferred height update: C1 *)

(** C1, as claimed, fails: the deferred update is not dropped.  A height
    is reported for the second cell, the cell is deleted, the timer fires:
    the list is called with the index [-1]. *)
Lemma deferred_update_still_calls_the_list :
  let s1 := (NotebookEditor.layoutElement 1%nat 300 Sample.shown).2 in
  let s2 := (NotebookEditor.deleteNotebookCell 1%nat s1).2 in
  timers s2 = [(1%nat, 300)] /\
  from_option (fun m => cells (getNotebook m)) [] (model s2) = [10; 12]%nat /\
  NotebookEditor.runTimeout s2 = (Normal tt, (NotebookEditor.runTimeout s2).2) /\
  calls (NotebookEditor.runTimeout s2).2
    = calls s2 ++ [list_updateDynamicHeight (-1) 1%nat 300].
Proof. vm_compute. repeat split; reflexivity. Qed.

(** C1, amended.  When the record of the cell is no longer among the
    model's cells and the deferred update of that cell is the next timer,
    running it does not throw.  If the list exists, it is called once,
    [updateDynamicHeight(-1, cell, height)], and by its contract stays as
    it was; nothing else changes but the timer being consumed. *)
Theorem deferred_update_of_deleted_cell (s : State) (c : loc) (v : ViewCell)
    (m : NotebookEditorModel) (height : Z) (rest : list (loc * Z)) :
  model s = Some m -> vcells s !! c = Some v ->
  cell v ∉ cells (getNotebook m) ->
  timers s = (c, height) :: rest ->
  NotebookEditor.runTimeout s =
    (Normal tt,
     mkState (icells s) (vcells s) (list_ s) (model s) (viewCells s) rest
       (calls s ++
          match list_ s with
          | Some _ => [list_updateDynamicHeight (-1) c height]
          | None => []
          end)).
Proof.
  intros Hm Hv Hnot Ht.
  unfold NotebookEditor.runTimeout. rewrite bind_eq, get_eq, Ht.
  rewrite bind_eq, modify_eq.
  rewrite (layoutElement_timeout_eq _ c height m v) by done.
  unfold height_updated. proj_state.
  rewrite (indexOf_notin _ _ Hnot).
  by destruct (list_ s).
Qed.

Lemma deferred_update_of_deleted_cell_witness :
  let s1 := (NotebookEditor.layoutElement 1%nat 300 Sample.shown).2 in
  let s2 := (NotebookEditor.deleteNotebookCell 1%nat s1).2 in
  NotebookEditor.runTimeout s2 =
    (Normal tt,
     mkState (icells s2) (vcells s2) (list_ s2) (model s2) (viewCells s2) []
       (calls s2 ++
          match list_ s2 with
          | Some _ => [list_updateDynamicHeight (-1) 1%nat 300]
          | None => []
          end)).
Proof.
  intros s1 s2.
  apply (deferred_update_of_deleted_cell s2 1%nat
    (mkViewCell 11%nat false None false None None)
    (mkModel 100%nat (mkNotebook [10; 12]%nat)) 300 []);
    try (vm_compute; reflexivity).
  vm_compute. intros H. repeat (apply elem_of_cons in H as [H|H]; [discriminate|]).
  by apply elem_of_nil in H.
Defined.

(** ** Opening a document *)

Lemma splice_replace_all {A} (items l : list A) :
  Array.splice 0 (Z.of_nat (length l)) items l = items.
Proof.
  unfold Array.splice. change (0 <? 0) with false. cbv iota.
  replace (Z.to_nat (Z.min 0 (Z.of_nat (length l)))) with 0%nat by lia.
  replace (Z.to_nat _) with (length l) by lia.
  by rewrite drop_all, app_nil_r.
Qed.

Lemma forEach_save l s :
  Forall (live s) l ->
  exists ics,
    forEach ViewCell.save l s = (Normal tt, set_icells (fun _ => ics) s) /\
    forall k, is_Some (ics !! k) <-> is_Some (icells s !! k).
Proof.
  revert s. induction l as [|c l IH]; intros s Hl.
  - exists (icells s). split; [by destruct s | done].
  - apply Forall_cons in Hl as [(v & Hv & [r Hr]) Hl]. simpl.
    rewrite bind_eq, (save_eq _ _ _ _ Hv Hr).
    set (s1 := match _textModel v with Some _ => _ | None => _ end).
    assert (vcells s1 = vcells s) as Hvs
      by (subst s1; destruct (_textModel v), (isEditing v); done).
    assert (forall k, is_Some (icells s1 !! k) <-> is_Some (icells s !! k)) as Hdom.
    { intros k. subst s1. destruct (_textModel v), (isEditing v); try done.
      simpl. destruct (decide (cell v = k)) as [<-|Hne].
      - rewrite lookup_insert_eq, Hr. split; eauto.
      - by rewrite lookup_insert_ne. }
    destruct (IH s1) as (ics & Hrun & Hics).
    { eapply Forall_impl; [exact Hl|]. intros k (w & Hw & Hrec).
      exists w. rewrite Hvs. split; [done|]. by apply Hdom. }
    exists ics. split.
    + rewrite Hrun. f_equal. subst s1.
      destruct (_textModel v), (isEditing v); done.
    + intros k. by rewrite Hics.
Qed.

Lemma new_eq c editing s :
  ViewCell.new c editing s =
  (Normal (fresh (dom (vcells s))),
   set_vcells <[fresh (dom (vcells s)) := mkViewCell c editing None false None None]> s).
Proof. reflexivity. Qed.

Lemma mapM_new cs s :
  exists vcs vs,
    mapM_ (fun c => ViewCell.new c false) cs s
      = (Normal vcs, set_vcells (fun _ => vs) s) /\
    Forall2 (fun vc c => vs !! vc = Some (mkViewCell c false None false None None))
      vcs cs /\
    vcells s ⊆ vs.
Proof.
  revert s. induction cs as [|c cs IH]; intros s.
  - exists [], (vcells s). split; [by destruct s|]. split; [constructor | done].
  - simpl. rewrite bind_eq, new_eq.
    set (n := fresh (dom (vcells s))).
    set (nv := mkViewCell c false None false None None).
    destruct (IH (set_vcells <[n := nv]> s)) as (vcs & vs & Hrun & Hall & Hsub).
    exists (n :: vcs), vs. rewrite bind_eq, Hrun. exec_all. split; [done|]. split.
    + constructor; [|done].
      eapply lookup_weaken; [|exact Hsub]. apply lookup_insert_eq.
    + etransitivity; [|exact Hsub]. simpl.
      apply insert_subseteq, not_elem_of_dom, is_fresh.
Qed.

Lemma mapM_rows d es s :
  Forall (fun e => exists v r, vcells s !! e = Some v /\ icells s !! cell v = Some r) es ->
  exists rs,
    mapM_ (fun e => h ← NotebookCellListDelegate.getHeight d e; mret (mkRow e h)) es s
      = (Normal rs, s) /\
    element <$> rs = es.
Proof.
  induction es as [|e es IH]; intros Hes.
  - by exists [].
  - apply Forall_cons in Hes as [(v & r & Hv & Hr) Hes].
    destruct (IH Hes) as (rs & Hrun & Hrs). simpl.
    unfold NotebookCellListDelegate.getHeight in *.
    exec_all. rewrite (getHeight_eq _ _ _ _ _ Hv Hr). exec_all.
    rewrite Hrun. exec_all. eexists. split; [reflexivity|]. by rewrite fmap_cons, Hrs.
Qed.

(** When [setInput] resolves to a model other than the current one on an
    editor whose list exists, with the cells shown so far live and the
    records of the new document in the store, it completes normally and
    the three orderings agree. *)
Theorem setInput_establishes_ordering (s : State) (resolved : NotebookEditorModel)
    (l : WorkbenchList) :
  list_ s = Some l ->
  (forall m, model s = Some m -> textModel m ≠ textModel resolved) ->
  Forall (live s) (viewCells s) ->
  Forall (fun r => is_Some (icells s !! r)) (cells (getNotebook resolved)) ->
  (NotebookEditor.setInput resolved s).1 = Normal tt /\
  consistent (NotebookEditor.setInput resolved s).2.
Proof.
  intros Hl Hm Hlive Hrec.
  unfold NotebookEditor.setInput. rewrite bind_eq, get_eq.
  assert (match model s with
          | Some m => bool_decide (textModel m = textModel resolved)
          | None => false
          end = false) as ->.
  { destruct (model s) as [m|]; [|done]. apply bool_decide_eq_false. by apply Hm. }
  destruct (forEach_save _ s Hlive) as (ics & Hsave & Hics).
  rewrite bind_eq, Hsave. exec_all.
  match goal with
  | |- context [mapM_ _ ?cs ?st] =>
      destruct (mapM_new cs st) as (vcs & vs & Hnew & Hall & _)
  end.
  rewrite Hnew. exec_all. unfold NotebookEditor.on_list. exec_all.
  rewrite Hl. exec_all. unfold WorkbenchList.splice.
  rewrite !(bind_eq (mapM_ _ _)).
  match goal with
  | |- context [mapM_ _ vcs ?st] =>
      destruct (mapM_rows (delegate l) vcs st) as (rs & Hrows & Hrs)
  end.
  { eapply Forall2_Forall_l; [exact Hall|].
    eapply Forall_impl; [exact Hrec|]. intros c Hc vc Hvc.
    apply Hics in Hc as [r Hr]. proj_state. eauto. }
  rewrite !Hrows. exec_all. unfold WorkbenchList.length. rewrite splice_replace_all.
  split; [done|]. unfold consistent, WorkbenchList.layout. proj_state. cbn [rows].
  split; [done|].
  apply mapM_Some. eapply Forall2_impl; [exact Hall|].
  intros vc c Hvc. simpl in *. by rewrite Hvc.
Qed.

Lemma setInput_establishes_ordering_witness :
  (NotebookEditor.setInput Sample.document Sample.opened).1 = Normal tt /\
  consistent Sample.shown.
Proof.
  apply (setInput_establishes_ordering Sample.opened Sample.document
           (mkList (mkDelegate 18) [])).
  - reflexivity.
  - intros m Hm. discriminate Hm.
  - constructor.
  - vm_compute. repeat constructor; eexists; reflexivity.
Defined.

(** ** Structural edits: C4, C5 and C6 *)

Lemma indexOf_found {A} `{EqDecision A} (x : A) (l : list A) :
  x ∈ l -> exists n : nat,
    Array.indexOf x l = Z.of_nat n /\ (n < length l)%nat /\ l !! n = Some x.
Proof.
  intros Hx. destruct (indexOf_in x l Hx) as (n & Hn & Hl).
  exists n. repeat split; [done | | done]. by eapply lookup_lt_Some.
Qed.

(** Old cells are still where they were once a fresh one is added. *)
Lemma wraps_after_insert (vs : gmap loc ViewCell) (nv : ViewCell) l k :
  Forall2 (fun c r => cell <$> vs !! c = Some r) l k ->
  Forall2 (fun c r => cell <$> <[fresh (dom vs) := nv]> vs !! c = Some r) l k.
Proof.
  intros Hl. eapply Forall2_impl; [exact Hl|]. intros c r Hc. simpl in *.
  rewrite lookup_insert_ne; [done|].
  intros <-. rewrite (proj1 (not_elem_of_dom _ _)) in Hc; [done|].
  apply is_fresh.
Qed.

Lemma consistent_inserted c type direction m v s :
  consistent s -> model s = Some m ->
  consistent (inserted c type direction m v s).
Proof.
  unfold consistent. intros Hc Hm. rewrite Hm in Hc.
  destruct (list_ s) as [l|] eqn:Hl; [|done]. destruct Hc as [Hrows Hwrap].
  unfold inserted. proj_state. rewrite Hl. cbn [rows]. split.
  - by rewrite splice_fmap, Hrows.
  - apply mapM_Some. apply mapM_Some in Hwrap.
    apply splice_Forall2; [by apply wraps_after_insert|].
    constructor; [|constructor]. by rewrite lookup_insert_eq.
Qed.

Lemma consistent_deleted m v s :
  consistent s -> model s = Some m -> cell v ∈ cells (getNotebook m) ->
  consistent (deleted m v s).
Proof.
  unfold consistent. intros Hc Hm Hin. rewrite Hm in Hc.
  destruct (list_ s) as [l|] eqn:Hl; [|done]. destruct Hc as [Hrows Hwrap].
  destruct (indexOf_found _ _ Hin) as (n & Hn & _ & _).
  unfold deleted, NotebookEditorModel.deleteCell. proj_state. rewrite Hl, Hn.
  assert ((Z.of_nat n <? 0) = false) as -> by lia.
  cbn [rows getNotebook cells]. split.
  - by rewrite splice_fmap, Hrows.
  - apply mapM_Some. apply mapM_Some in Hwrap.
    apply splice_Forall2; [done | constructor].
Qed.

(** C4.  From a state where the three orderings agree, along any sequence
    of insertions and deletions whose anchors are found in the model, each
    operation completes normally and the three orderings agree again when
    it has completed. *)
Theorem ordering_law {host : Host} (es : list Event) (s : State) :
  consistent s -> anchors_found es s ->
  Forall (fun cs => cs.1 = Normal tt /\ consistent cs.2) (history es s).
Proof.
  revert s. induction es as [|e es IH]; intros s Hs Has; simpl; [constructor|].
  destruct Has as [Ha Has].
  assert ((exec e s).1 = Normal tt /\ consistent (exec e s).2) as [Hn Hc].
  { destruct e; simpl in Ha; try done; unfold anchor_found in Ha;
      destruct (model s) as [m|] eqn:Hm; try done;
      destruct (vcells s !! c) as [v|] eqn:Hv; try done; simpl.
    - rewrite (insertEmptyNotebookCell_eq _ _ _ _ m v) by done.
      split; [done|]. by apply consistent_inserted.
    - rewrite (deleteNotebookCell_eq _ _ m v) by done.
      split; [done|]. by apply consistent_deleted. }
  constructor; [done|]. by apply IH.
Qed.

Lemma ordering_law_witness :
  Forall (fun cs => cs.1 = Normal tt /\ consistent cs.2)
    (history (host := Sample.host)
       [ev_deleteNotebookCell 0%nat;
        ev_insertEmptyNotebookCell 2%nat markdown above;
        ev_insertEmptyNotebookCell 3%nat code below;
        ev_deleteNotebookCell 2%nat]
       Sample.shown).
Proof.
  apply (ordering_law (host := Sample.host)).
  - vm_compute. split; reflexivity.
  - vm_compute. repeat split; repeat constructor.
Defined.

Lemma lookup_splice_insert {A} (n : nat) (x : A) (l : list A) :
  (n <= length l)%nat -> Array.splice (Z.of_nat n) 0 [x] l !! n = Some x.
Proof.
  intros Hn. rewrite splice_insert_at by done.
  rewrite lookup_app_r by (rewrite length_take; lia).
  rewrite length_take. by replace (n - n `min` length l)%nat with 0%nat by lia.
Qed.

(** C5.  In a state where the three orderings agree, let [i] be the index
    [indexOf] finds for the anchor's record in the model's cells when the
    call is made.  Then [insertEmptyNotebookCell] completes normally and
    puts a fresh cell, empty, of the requested kind, editing when it is
    markdown, at index [i] for [above] and [i + 1] for [below], in
    [viewCells], in the model's cells and in the list alike, the two
    collaborators being called with that index. *)
Theorem insert_direction (s : State) (c : loc) (v : ViewCell)
    (m : NotebookEditorModel) (i : nat) (type : CellType) (direction : Direction) :
  consistent s -> model s = Some m -> vcells s !! c = Some v ->
  Array.indexOf (cell v) (cells (getNotebook m)) = Z.of_nat i ->
  let k := match direction with above => i | below => S i end in
  let newCell := fresh (dom (vcells s)) in
  let r := fresh (dom (icells s)) in
  exists s' m' l',
    NotebookEditor.insertEmptyNotebookCell c type direction s = (Normal tt, s') /\
    vcells s !! newCell = None /\ icells s !! r = None /\
    vcells s' !! newCell
      = Some (mkViewCell r (bool_decide (type = markdown)) None false None None) /\
    icells s' !! r = Some (mkICell type [] []) /\
    viewCells s' !! k = Some newCell /\
    model s' = Some m' /\ cells (getNotebook m') !! k = Some r /\
    list_ s' = Some l' /\ element <$> rows l' !! k = Some newCell /\
    calls s' = calls s ++
      [model_insertCell r (Z.of_nat k); list_splice (Z.of_nat k) 0 [newCell]].
Proof.
  intros Hc Hm Hv Hi k newCell r.
  pose proof (indexOf_lookup _ _ _ Hi) as Hlook.
  apply lookup_lt_Some in Hlook.
  pose proof Hc as Hc'. unfold consistent in Hc'. rewrite Hm in Hc'.
  destruct (list_ s) as [l|] eqn:Hl; [|done]. destruct Hc' as [Hrows Hwrap].
  apply mapM_Some, Forall2_length in Hwrap.
  assert (length (rows l) = length (viewCells s)) as Hlen
    by (by rewrite <- Hrows, length_fmap).
  assert (k <= length (cells (getNotebook m)))%nat as Hk
    by (subst k; destruct direction; lia).
  assert (match direction with above => Z.of_nat i | below => Z.of_nat i + 1 end
          = Z.of_nat k) as Hidx by (subst k; destruct direction; lia).
  eexists (inserted c type direction m v s), _, _.
  split; [by apply insertEmptyNotebookCell_eq|].
  split; [apply not_elem_of_dom, is_fresh|].
  split; [apply not_elem_of_dom, is_fresh|].
  unfold inserted, NotebookEditorModel.insertCell. proj_state.
  rewrite Hl, Hi, Hidx. fold newCell r.
  split; [apply lookup_insert_eq|]. split; [apply lookup_insert_eq|].
  split; [apply lookup_splice_insert; lia|].
  split; [reflexivity|]. split; [by apply lookup_splice_insert|].
  split; [reflexivity|]. cbn [rows]. split; [|done].
  rewrite <- list_lookup_fmap, splice_fmap.
  apply lookup_splice_insert. rewrite length_fmap. lia.
Qed.

Lemma insert_direction_witness :
  let s := (NotebookEditor.deleteNotebookCell 0%nat Sample.shown).2 in
  exists s' m' l',
    NotebookEditor.insertEmptyNotebookCell 2%nat markdown above s = (Normal tt, s') /\
    vcells s !! 3%nat = None /\ icells s !! 13%nat = None /\
    vcells s' !! 3%nat = Some (mkViewCell 13%nat true None false None None) /\
    icells s' !! 13%nat = Some (mkICell markdown [] []) /\
    viewCells s' !! 1%nat = Some 3%nat /\
    model s' = Some m' /\ cells (getNotebook m') !! 1%nat = Some 13%nat /\
    list_ s' = Some l' /\ element <$> rows l' !! 1%nat = Some 3%nat /\
    calls s' = calls s ++ [model_insertCell 13%nat 1; list_splice 1 0 [3%nat]].
Proof.
  intros s.
  apply (insert_direction s 2%nat (mkViewCell 12%nat false None false None None)
    (mkModel 100%nat (mkNotebook [11; 12]%nat)) 1%nat markdown above);
    vm_compute; try split; reflexivity.
Defined.

(** C6, as claimed, fails: nothing checks that the anchor was found.  The
    second cell is deleted; a second request to delete the same cell
    object, whose record is no longer in the model, completes normally
    and removes the last cell of [viewCells], an unrelated one. *)
Lemma stale_anchor_is_not_rejected :
  let s := (NotebookEditor.deleteNotebookCell 1%nat Sample.shown).2 in
  cell <$> vcells s !! 1%nat = Some 11%nat /\
  from_option (fun m => cells (getNotebook m)) [] (model s) = [10; 12]%nat /\
  viewCells s = [0; 2]%nat /\
  (NotebookEditor.deleteNotebookCell 1%nat s).1 = Normal tt /\
  viewCells (NotebookEditor.deleteNotebookCell 1%nat s).2 = [0%nat] /\
  (NotebookEditor.insertEmptyNotebookCell 1%nat code below s).1 = Normal tt /\
  viewCells (NotebookEditor.insertEmptyNotebookCell 1%nat code below s).2
    = [3; 0; 2]%nat.
Proof. vm_compute. repeat split; reflexivity. Qed.

(** C6, amended.  When the anchor's record is not among the model's
    cells, neither operation checks for it: [indexOf] yields [-1] and the
    operation goes on with that index.  [deleteNotebookCell] removes the
    last element of [viewCells]; [insertEmptyNotebookCell] puts the new
    cell first for [below] and before the last element for [above]; the
    model and then, when it exists, the list are called with the same
    index. *)
Theorem missing_anchor_is_not_checked (s : State) (c : loc) (v : ViewCell)
    (m : NotebookEditorModel) :
  model s = Some m -> vcells s !! c = Some v ->
  cell v ∉ cells (getNotebook m) ->
  let n := length (viewCells s) in
  let newCell := fresh (dom (vcells s)) in
  let r := fresh (dom (icells s)) in
  (let s' := (NotebookEditor.deleteNotebookCell c s).2 in
   viewCells s' = take (n - 1) (viewCells s) /\
   calls s' = calls s ++ model_deleteCell (cell v) ::
     match list_ s with Some _ => [list_splice (-1) 1 []] | None => [] end) /\
  (forall type,
   let s' := (NotebookEditor.insertEmptyNotebookCell c type below s).2 in
   viewCells s' = newCell :: viewCells s /\
   calls s' = calls s ++ model_insertCell r 0 ::
     match list_ s with Some _ => [list_splice 0 0 [newCell]] | None => [] end) /\
  (forall type,
   let s' := (NotebookEditor.insertEmptyNotebookCell c type above s).2 in
   viewCells s' =
     take (n - 1) (viewCells s) ++ newCell :: drop (n - 1) (viewCells s) /\
   calls s' = calls s ++ model_insertCell r (-1) ::
     match list_ s with Some _ => [list_splice (-1) 0 [newCell]] | None => [] end).
Proof.
  intros Hm Hv Hnot n newCell r.
  pose proof (indexOf_notin _ _ Hnot) as Hi.
  split; [|split].
  - rewrite (deleteNotebookCell_eq _ _ m v) by done.
    unfold deleted. proj_state. rewrite Hi. split; [apply splice_last_delete | done].
  - intros type. rewrite (insertEmptyNotebookCell_eq _ _ _ _ m v) by done.
    unfold inserted. proj_state. rewrite Hi. split; [|done].
    by rewrite (splice_insert_at 0) by lia.
  - intros type. rewrite (insertEmptyNotebookCell_eq _ _ _ _ m v) by done.
    unfold inserted. proj_state. rewrite Hi. split; [by rewrite splice_last_insert | done].
Qed.

Lemma missing_anchor_is_not_checked_witness :
  let s := (NotebookEditor.deleteNotebookCell 1%nat Sample.shown).2 in
  let s' := (NotebookEditor.deleteNotebookCell 1%nat s).2 in
  viewCells s' = take (length (viewCells s) - 1) (viewCells s) /\
  calls s' = calls s ++ model_deleteCell 11%nat ::
    match list_ s with Some _ => [list_splice (-1) 1 []] | None => [] end.
Proof.
  intros s.
  refine (proj1 (missing_anchor_is_not_checked s 1%nat
    (mkViewCell 11%nat false None false None None)
    (mkModel 100%nat (mkNotebook [10; 12]%nat)) _ _ _));
    try (vm_compute; reflexivity).
  vm_compute. intros H. repeat (apply elem_of_cons in H as [H|H]; [discriminate|]).
  by apply elem_of_nil in H.
Defined.

(** * Further properties *)

(** ** Fields that no call changes *)

#[local] Instance view_rel_preorder Q `{!PreOrder Q} c : PreOrder (view_rel Q c).
Proof.
  split.
  - intros s v Hv. exists v. split; [done | reflexivity].
  - intros s1 s2 s3 H12 H23 v Hv.
    destruct (H12 v Hv) as (v2 & Hv2 & Q2).
    destruct (H23 v2 Hv2) as (v3 & Hv3 & Q3).
    exists v3. split; [done | by etransitivity].
Qed.

#[local] Instance cell_rel_preorder Q `{!PreOrder Q} k : PreOrder (cell_rel Q k).
Proof.
  split.
  - intros s r Hr. exists r. split; [done | reflexivity].
  - intros s1 s2 s3 H12 H23 r Hr.
    destruct (H12 r Hr) as (r2 & Hr2 & Q2).
    destruct (H23 r2 Hr2) as (r3 & Hr3 & Q3).
    exists r3. split; [done | by etransitivity].
Qed.

#[local] Instance editing_not_turned_on_preorder : PreOrder editing_not_turned_on.
Proof. split; unfold editing_not_turned_on; [intros ? | intros ? ? ?]; auto. Qed.

#[local] Instance same_record_preorder : PreOrder same_record.
Proof. split; unfold same_record; [intros ? | intros ? ? ?]; congruence. Qed.

#[local] Instance html_kept_preorder : PreOrder html_kept.
Proof.
  split; unfold html_kept; [by intros ? | intros v1 v2 v3 H12 H23 Ht].
  rewrite <- (H12 Ht). apply H23. by rewrite (H12 Ht).
Qed.

#[local] Instance buffer_kept_preorder : PreOrder buffer_kept.
Proof. split; unfold buffer_kept; [intros ? | intros ? ? ?]; auto. Qed.

#[local] Instance same_kind_preorder : PreOrder same_kind.
Proof.
  split; unfold same_kind; [by intros ? | intros ? ? ? [? ?] [? ?]].
  split; congruence.
Qed.

Section object_relations.
Context (Q : relation ViewCell) `{!PreOrder Q} (QI : relation ICell) `{!PreOrder QI}.

Lemma view_rel_same_vcells c s s' : vcells s' = vcells s -> view_rel Q c s s'.
Proof. intros E v Hv. rewrite E. exists v. split; [done | reflexivity]. Qed.

Lemma cell_rel_same_icells k s s' : icells s' = icells s -> cell_rel QI k s s'.
Proof. intros E r Hr. rewrite E. exists r. split; [done | reflexivity]. Qed.

Lemma view_rel_update_view c this f :
  (this = c -> forall v, Q v (f v)) ->
  preserves (view_rel Q c) (update_view this f).
Proof.
  intros Hf s. unfold update_view. rewrite bind_eq. unfold deref_view.
  destruct (vcells s !! this) as [w|] eqn:Hw; simpl; [|reflexivity].
  intros v Hv. unfold modify. simpl. destruct (decide (this = c)) as [->|Hne].
  - rewrite lookup_insert_eq. assert (w = v) as -> by congruence. eauto.
  - rewrite lookup_insert_ne by done. exists v. split; [done | reflexivity].
Qed.

Lemma cell_rel_update_cell k this f :
  (this = k -> forall r, QI r (f r)) ->
  preserves (cell_rel QI k) (update_cell this f).
Proof.
  intros Hf s. unfold update_cell. rewrite bind_eq. unfold deref_cell.
  destruct (icells s !! this) as [w|] eqn:Hw; simpl; [|reflexivity].
  intros r Hr. unfold modify. simpl. destruct (decide (this = k)) as [->|Hne].
  - rewrite lookup_insert_eq. assert (w = r) as -> by congruence. eauto.
  - rewrite lookup_insert_ne by done. exists r. split; [done | reflexivity].
Qed.

Lemma view_rel_new c r editing :
  preserves (view_rel Q c) (ViewCell.new r editing).
Proof.
  intros s v Hv. unfold ViewCell.new. simpl.
  exists v. split; [|reflexivity]. rewrite lookup_insert_ne; [done|].
  by eapply fresh_view_ne.
Qed.

Lemma cell_rel_new_cell k type :
  preserves (cell_rel QI k) (NotebookEditor.new_cell type).
Proof.
  intros s r Hr. unfold NotebookEditor.new_cell. simpl.
  exists r. split; [|reflexivity]. rewrite lookup_insert_ne; [done|].
  intros E. apply (is_fresh (dom (icells s))). rewrite E.
  apply elem_of_dom. eauto.
Qed.

End object_relations.

(** One step of a proof that a call keeps such a relation; [side] settles
    what an update of the object itself has to respect. *)
Ltac rel_step side :=
  first
    [ apply view_rel_new; tc_solve
    | apply cell_rel_new_cell; tc_solve
    | apply view_rel_update_view; [tc_solve | side]
    | apply cell_rel_update_cell; [tc_solve | side]
    | apply preserves_modify; intros ?;
      first [ apply view_rel_same_vcells; [tc_solve | reflexivity]
            | apply cell_rel_same_icells; [tc_solve | reflexivity] ]
    | apply preserves_ret; tc_solve
    | apply preserves_throw; tc_solve
    | apply preserves_get; tc_solve
    | apply preserves_deref_view; tc_solve
    | apply preserves_deref_cell; tc_solve
    | apply preserves_forEach; [tc_solve | intros ?]
    | apply preserves_mapM; [tc_solve | intros ?]
    | apply preserves_bind; [tc_solve | | intros ?]
    | match goal with
      | |- preserves _ (match ?x with _ => _ end) => destruct x
      end ].

Ltac unfold_methods :=
  unfold discard, ViewCell.setDynamicHeight, ViewCell.hasDynamicHeight,
    ViewCell.getHeight, ViewCell.setText, ViewCell.save, ViewCell.getText,
    ViewCell.cellType, ViewCell.lineCount, edit_buffer,
    NotebookEditor.onHide, NotebookEditor.setInput, NotebookEditor.layoutElement,
    NotebookEditor.runTimeout, NotebookEditor.layoutElement_timeout,
    NotebookEditor.insertEmptyNotebookCell, NotebookEditor.deleteNotebookCell,
    NotebookEditor.on_model, NotebookEditor.on_list, NotebookEditor.the_model,
    WorkbenchList.splice, NotebookCellListDelegate.getHeight, log.

Section kept_by_every_event.
Context {host : Host}.

Lemma editing_not_turned_on_exec c e :
  preserves (view_rel editing_not_turned_on c) (exec e).
Proof.
  destruct e; simpl; unfold_methods;
    repeat rel_step ltac:(intros _ ?; unfold editing_not_turned_on; simpl; done).
Qed.

Lemma same_record_exec c e : preserves (view_rel same_record c) (exec e).
Proof.
  destruct e; simpl; unfold_methods;
    repeat rel_step ltac:(intros _ ?; unfold same_record; simpl; done).
Qed.

Lemma same_kind_exec k e : preserves (cell_rel same_kind k) (exec e).
Proof.
  destruct e; simpl; unfold_methods;
    repeat rel_step ltac:(intros _ ?; unfold same_kind; simpl; done).
Qed.

End kept_by_every_event.

Lemma preserves_run {host : Host} (R : relation State) `{!PreOrder R}
    (ok : Event -> bool) :
  (forall e, ok e = true -> preserves R (exec e)) ->
  forall es s, forallb ok es = true -> R s (run es s).
Proof.
  intros Hok es. induction es as [|e es IH]; intros s Hes; simpl in *.
  - reflexivity.
  - apply andb_prop in Hes as [He Hes].
    etransitivity; [apply (Hok e He s) | by apply IH].
Qed.

Lemma preserves_run_all {host : Host} (R : relation State) `{!PreOrder R} :
  (forall e, preserves R (exec e)) -> forall es s, R s (run es s).
Proof.
  intros Hall es s. apply (preserves_run R (fun _ => true)); [auto|].
  by induction es.
Qed.

(** ** Editing mode *)

(** No call turns editing mode on: a cell that is not editing stays so
    through every sequence of events, and [save()] on it completes
    normally and writes nothing. *)
Theorem editing_is_never_turned_on {host : Host} (s : State) (c : loc)
    (v : ViewCell) (es : list Event) :
  vcells s !! c = Some v -> isEditing v = false ->
  (exists v', vcells (run es s) !! c = Some v' /\ isEditing v' = false) /\
  ViewCell.save c (run es s) = (Normal tt, run es s).
Proof.
  intros Hv He.
  destruct (preserves_run_all _ (editing_not_turned_on_exec c) es s v Hv)
    as (v' & Hv' & Hq).
  assert (isEditing v' = false) as He'.
  { destruct (isEditing v') eqn:E; [|done]. rewrite (Hq E) in He. done. }
  split; [eauto|].
  unfold ViewCell.save. rewrite bind_eq, (deref_view_eq _ _ _ Hv'). cbn beta iota.
  rewrite He'. by destruct (_textModel v').
Qed.

Lemma editing_is_never_turned_on_witness :
  let es := [ev_getTextModel 1%nat; ev_edit_buffer 1%nat ["x = 1"];
             ev_insertEmptyNotebookCell 1%nat markdown below; ev_onHide] in
  (exists v', vcells (run (host := Sample.host) es Sample.shown) !! 1%nat = Some v'
     /\ isEditing v' = false) /\
  ViewCell.save 1%nat (run (host := Sample.host) es Sample.shown)
    = (Normal tt, run (host := Sample.host) es Sample.shown).
Proof.
  intros es.
  apply (editing_is_never_turned_on (host := Sample.host) Sample.shown 1%nat
    (mkViewCell 11%nat false None false None None) es); reflexivity.
Defined.

(** ** The kind of a cell *)

(** A [ViewCell] wraps the same record for life and no call changes the
    kind of a record: once [cellType] has answered for a cell, it gives
    the same answer after every sequence of events. *)
Theorem cellType_is_fixed {host : Host} (s : State) (c : loc) (t : CellType)
    (es : list Event) :
  ViewCell.cellType c s = (Normal t, s) ->
  ViewCell.cellType c (run es s) = (Normal t, run es s).
Proof.
  unfold ViewCell.cellType. rewrite !bind_eq. unfold deref_view at 1.
  destruct (vcells s !! c) as [v|] eqn:Hv; [|done]. cbn beta iota.
  rewrite bind_eq. unfold deref_cell at 1.
  destruct (icells s !! cell v) as [r|] eqn:Hr; [|done]. cbn beta iota.
  rewrite ret_eq. intros [= Ht].
  destruct (preserves_run_all _ (same_record_exec c) es s v Hv) as (v' & Hv' & Hq).
  destruct (preserves_run_all _ (same_kind_exec (cell v)) es s r Hr)
    as (r' & Hr' & Hk & _).
  unfold same_record in Hq.
  rewrite (deref_view_eq _ _ _ Hv'). cbn beta iota.
  rewrite bind_eq, Hq, (deref_cell_eq _ _ _ Hr'). cbn beta iota.
  by rewrite ret_eq, Hk, Ht.
Qed.

Lemma cellType_is_fixed_witness :
  let es := [ev_setText 0%nat ["plain"]; ev_deleteNotebookCell 0%nat;
             ev_setInput (mkModel 7%nat (mkNotebook [12%nat]))] in
  ViewCell.cellType 0%nat (run (host := Sample.host) es Sample.shown)
    = (Normal markdown, run (host := Sample.host) es Sample.shown).
Proof.
  intros es.
  apply (cellType_is_fixed (host := Sample.host) Sample.shown 0%nat markdown es).
  reflexivity.
Defined.

(** ** The cached rendering and the buffer *)

Lemma getHTML_eq {host : Host} s c v r :
  vcells s !! c = Some v -> icells s !! cell v = Some r ->
  ViewCell.getHTML c s =
  match cell_type r with
  | markdown =>
      if truthy_string (_html v) then (Normal (_html v), s)
      else
        let html := marked (Array.join (source r)) in
        (Normal (Some html),
         set_vcells <[c := set_html (Some html) (set_mdRenderer true v)]> s)
  | code => (Normal None, s)
  end.
Proof.
  intros Hv Hr. unfold ViewCell.getHTML, ViewCell.cellType, ViewCell.getMDRenderer.
  exec_all. destruct (cell_type r); [|by exec_all].
  exec_all. destruct (truthy_string (_html v)); [by exec_all|].
  exec_all. destruct (_mdRenderer v) eqn:Hm; exec_all.
  - rewrite (getText_eq _ _ _ _ Hv Hr). exec_all.
    destruct v; simpl in *; by subst.
  - erewrite getText_eq by first [apply lookup_insert_eq | exact Hr].
    exec_all. unfold set_vcells. cbn [icells vcells list_ model viewCells timers calls].
    by rewrite insert_insert_eq.
Qed.

(** What [getHTML] can do to the state: nothing, or fill the cache of a
    cell that had none. *)
Lemma getHTML_state {host : Host} s this :
  (ViewCell.getHTML this s).2 = s \/
  exists v html,
    vcells s !! this = Some v /\ truthy_string (_html v) = false /\
    (ViewCell.getHTML this s).2
      = set_vcells <[this := set_html html (set_mdRenderer true v)]> s.
Proof.
  destruct (vcells s !! this) as [v|] eqn:Hv.
  - destruct (icells s !! cell v) as [r|] eqn:Hr.
    + rewrite (getHTML_eq _ _ _ _ Hv Hr).
      destruct (cell_type r); [|by left].
      destruct (truthy_string (_html v)) eqn:Ht; [by left|]. right. eauto.
    + left. unfold ViewCell.getHTML, ViewCell.cellType. exec_all.
      unfold deref_cell. by rewrite Hr.
  - left. unfold ViewCell.getHTML, ViewCell.cellType. rewrite !bind_eq.
    unfold deref_view. by rewrite Hv.
Qed.

Lemma getTextModel_eq {host : Host} s c v :
  vcells s !! c = Some v ->
  ViewCell.getTextModel c s =
  match _textModel v with
  | Some tm => (Normal tm, s)
  | None =>
      match icells s !! cell v with
      | Some r =>
          let tm := createModel (Array.join (source r))
                      match cell_type r with markdown => "md" | code => "py" end in
          (Normal tm, set_vcells <[c := set_textModel (Some tm) v]> s)
      | None => (Throw "TypeError", s)
      end
  end.
Proof.
  intros Hv. unfold ViewCell.getTextModel, ViewCell.cellType. exec_all.
  destruct (_textModel v); [by exec_all|].
  destruct (icells s !! cell v) as [r|] eqn:Hr.
  - exec_all. by destruct (cell_type r).
  - exec_all. unfold deref_cell. by rewrite Hr.
Qed.

Lemma getTextModel_state {host : Host} s this :
  (ViewCell.getTextModel this s).2 = s \/
  exists v tm,
    vcells s !! this = Some v /\ _textModel v = None /\
    (ViewCell.getTextModel this s).2
      = set_vcells <[this := set_textModel tm v]> s.
Proof.
  destruct (vcells s !! this) as [v|] eqn:Hv.
  - rewrite (getTextModel_eq _ _ _ Hv).
    destruct (_textModel v) eqn:Ht; [by left|].
    destruct (icells s !! cell v); [|by left]. right. eauto.
  - left. unfold ViewCell.getTextModel. rewrite bind_eq.
    unfold deref_view. by rewrite Hv.
Qed.

Section cache_and_buffer.
Context {host : Host} (c : loc).

Lemma html_kept_getHTML this :
  preserves (view_rel html_kept c) (ViewCell.getHTML this).
Proof.
  intros s. destruct (getHTML_state s this) as [->|(v & html & Hv & Ht & ->)].
  - reflexivity.
  - intros v0 Hv0. simpl. destruct (decide (this = c)) as [->|Hne].
    + rewrite lookup_insert_eq. eexists. split; [done|].
      assert (v0 = v) as -> by congruence.
      unfold html_kept. rewrite Ht. done.
    + rewrite lookup_insert_ne by done. exists v0. split; [done | reflexivity].
Qed.

Lemma html_kept_exec e :
  sets_text c e = false -> preserves (view_rel html_kept c) (exec e).
Proof.
  intros He. destruct e; simpl in *; unfold_methods.
  all: repeat first
    [ apply html_kept_getHTML
    | rel_step ltac:(first
        [ by (intros _ ?; unfold html_kept; simpl)
        | by (intros ->; rewrite bool_decide_eq_false in He) ]) ].
Qed.

Lemma buffer_kept_getTextModel this :
  preserves (view_rel buffer_kept c) (ViewCell.getTextModel this).
Proof.
  intros s. destruct (getTextModel_state s this) as [->|(v & tm & Hv & Ht & ->)].
  - reflexivity.
  - intros v0 Hv0. simpl. destruct (decide (this = c)) as [->|Hne].
    + rewrite lookup_insert_eq. eexists. split; [done|].
      assert (v0 = v) as -> by congruence.
      unfold buffer_kept. rewrite Ht. done.
    + rewrite lookup_insert_ne by done. exists v0. split; [done | reflexivity].
Qed.

Lemma buffer_kept_exec e :
  edits_buffer c e = false -> preserves (view_rel buffer_kept c) (exec e).
Proof.
  intros He. destruct e; simpl in *; unfold_methods.
  all: repeat first
    [ apply buffer_kept_getTextModel
    | rel_step ltac:(first
        [ by (intros _ ?; unfold buffer_kept; simpl)
        | by (intros ->; rewrite bool_decide_eq_false in He) ]) ].
Qed.

End cache_and_buffer.

(** On a markdown cell, a cached rendering that is not the empty string
    is what [getHTML] returns, and [getHTML] changes nothing, after every
    sequence of events that holds no [setText] on the cell: [save()] and
    typing change the text and leave the cache. *)
Theorem cached_html_outlives_the_text {host : Host} (s : State) (c : loc)
    (v : ViewCell) (r : ICell) (h : string) (es : list Event) :
  vcells s !! c = Some v -> icells s !! cell v = Some r ->
  cell_type r = markdown ->
  _html v = Some h -> h <> EmptyString ->
  forallb (fun e => negb (sets_text c e)) es = true ->
  ViewCell.getHTML c (run es s) = (Normal (Some h), run es s).
Proof.
  intros Hv Hr Ht Hh Hne Hes.
  assert (truthy_string (_html v) = true) as Htr
    by (rewrite Hh; by destruct h).
  destruct (preserves_run _ (fun e => negb (sets_text c e))
              (fun e He => html_kept_exec c e (proj1 (negb_true_iff _) He))
              es s Hes v Hv) as (v1 & Hv1 & Hq1).
  destruct (preserves_run_all _ (same_record_exec c) es s v Hv) as (v2 & Hv2 & Hq2).
  destruct (preserves_run_all _ (same_kind_exec (cell v)) es s r Hr)
    as (r' & Hr' & Hk & _).
  assert (v2 = v1) as -> by congruence.
  unfold same_record in Hq2. rewrite <- Hq2 in Hr'.
  rewrite (getHTML_eq _ _ _ _ Hv1 Hr'), Hk, Ht, (Hq1 Htr), Htr. by rewrite Hh.
Qed.

Lemma cached_html_outlives_the_text_witness :
  let s := run (host := Sample.host)
             [ev_insertEmptyNotebookCell 0%nat markdown below;
              ev_getTextModel 3%nat; ev_getHTML 3%nat] Sample.shown in
  let es := [ev_edit_buffer 3%nat ["# New"]; ev_save 3%nat] in
  ViewCell.getText 3%nat (run (host := Sample.host) es s)
    = (Normal ("# New" +:+ LF), run (host := Sample.host) es s) /\
  ViewCell.getHTML (host := Sample.host) 3%nat (run (host := Sample.host) es s)
    = (Normal (Some "<p></p>"), run (host := Sample.host) es s).
Proof.
  intros s es. split; [vm_compute; reflexivity|].
  apply (cached_html_outlives_the_text (host := Sample.host) s 3%nat
    (mkViewCell 13%nat true (Some (mkTextModel [EmptyString])) true (Some "<p></p>") None)
    (mkICell markdown [] []) "<p></p>" es); try (vm_compute; reflexivity).
  discriminate.
Defined.

(** [getTextModel] creates the buffer at most once: after a call that
    returned a buffer, every later call returns that same buffer and
    changes nothing, whatever happened in between short of typing into
    it; [setText] in particular does not reseed the buffer. *)
Theorem buffer_is_created_once {host : Host} (s : State) (c : loc)
    (tm : ITextModel) (es : list Event) :
  (ViewCell.getTextModel c s).1 = Normal tm ->
  forallb (fun e => negb (edits_buffer c e)) es = true ->
  let s1 := (ViewCell.getTextModel c s).2 in
  ViewCell.getTextModel c (run es s1) = (Normal tm, run es s1).
Proof.
  intros Hget Hes s1.
  assert (exists v1, vcells s1 !! c = Some v1 /\ _textModel v1 = Some tm)
    as (v1 & Hv1 & Htm).
  { subst s1. destruct (vcells s !! c) as [v|] eqn:Hv.
    - rewrite (getTextModel_eq _ _ _ Hv) in *.
      destruct (_textModel v) as [tm0|] eqn:Ht.
      + simpl in *. exists v. split; [done | congruence].
      + destruct (icells s !! cell v) as [r|]; [|done]. simpl in *.
        eexists. split; [apply lookup_insert_eq|]. simpl. congruence.
    - unfold ViewCell.getTextModel in Hget. rewrite bind_eq in Hget.
      unfold deref_view in Hget. by rewrite Hv in Hget. }
  destruct (preserves_run _ (fun e => negb (edits_buffer c e))
              (fun e He => buffer_kept_exec c e (proj1 (negb_true_iff _) He))
              es s1 Hes v1 Hv1) as (v' & Hv' & Hq).
  by rewrite (getTextModel_eq _ _ _ Hv'), (Hq tm Htm).
Qed.

Lemma buffer_is_created_once_witness :
  let s1 := (ViewCell.getTextModel (host := Sample.host) 0%nat Sample.shown).2 in
  let es := [ev_setText 0%nat ["# Changed"]; ev_onHide] in
  ViewCell.getText 0%nat (run (host := Sample.host) es s1)
    = (Normal ("# Changed" +:+ LF), run (host := Sample.host) es s1) /\
  ViewCell.getTextModel (host := Sample.host) 0%nat (run (host := Sample.host) es s1)
    = (Normal (mkTextModel ["# Title" +:+ LF]), run (host := Sample.host) es s1).
Proof.
  intros s1 es. split; [vm_compute; reflexivity|].
  apply (buffer_is_created_once (host := Sample.host) Sample.shown 0%nat
    (mkTextModel ["# Title" +:+ LF]) es); vm_compute; reflexivity.
Defined.

(** ** Arrays, continued *)

Lemma splice_shape {A} (start deleteCount : Z) (items l : list A) :
  exists a b : nat,
    (a <= b)%nat /\
    Array.splice start deleteCount items l = take a l ++ items ++ drop b l.
Proof.
  unfold Array.splice.
  set (a := if start <? 0 then _ else _).
  set (d := Z.min _ _).
  exists (Z.to_nat a), (Z.to_nat (a + d)). split; [|done].
  assert (0 <= a <= Z.of_nat (length l)) by (subst a; destruct (Z.ltb_spec start 0); lia).
  assert (0 <= d) by (subst d; lia). lia.
Qed.

Lemma elem_of_splice {A} (start deleteCount : Z) (items l : list A) x :
  x ∈ Array.splice start deleteCount items l -> x ∈ items \/ x ∈ l.
Proof.
  destruct (splice_shape start deleteCount items l) as (a & b & _ & ->).
  rewrite !elem_of_app. intros [Hx|[Hx|Hx]]; [right | by left | right].
  - by eapply subseteq_take.
  - by eapply subseteq_drop.
Qed.

Lemma NoDup_splice {A} (start deleteCount : Z) (items l : list A) :
  NoDup l -> NoDup items -> (forall x, x ∈ items -> x ∉ l) ->
  NoDup (Array.splice start deleteCount items l).
Proof.
  intros Hl Hi Hd.
  destruct (splice_shape start deleteCount items l) as (a & b & Hab & ->).
  rewrite Permutation_app_swap_app.
  assert (take a l ++ drop b l `sublist_of` l) as Hsub.
  { rewrite <- (take_drop a l) at 3. apply sublist_app; [done|].
    replace b with (a + (b - a))%nat by lia. rewrite <- drop_drop.
    apply sublist_drop. }
  apply NoDup_app. split; [done|]. split.
  - intros x Hx Hx'. apply (Hd x Hx). exact (sublist_subseteq _ _ Hsub x Hx').
  - exact (sublist_NoDup _ _ Hl Hsub).
Qed.

Lemma splice_insert_delete {A} (k : nat) (x : A) (l : list A) :
  (k <= length l)%nat ->
  Array.splice (Z.of_nat k) 1 [] (Array.splice (Z.of_nat k) 0 [x] l) = l.
Proof.
  intros Hk. rewrite (splice_insert_at k [x] l) by done.
  rewrite splice_delete_at by (rewrite !length_app, length_take, length_drop; simpl; lia).
  rewrite take_app_le by (rewrite length_take; lia).
  rewrite take_take, Nat.min_id.
  rewrite drop_app_ge by (rewrite length_take; lia).
  rewrite length_take. replace (S k - k `min` length l)%nat with 1%nat by lia.
  simpl. rewrite drop_0. apply take_drop.
Qed.

Lemma indexOf_from_middle {A} `{EqDecision A} (x : A) (l1 l2 : list A) i :
  x ∉ l1 ->
  Array.indexOf_from x (l1 ++ x :: l2) i = i + Z.of_nat (length l1).
Proof.
  revert i. induction l1 as [|y l1 IH]; intros i Hx; simpl.
  - rewrite decide_True by done. lia.
  - apply not_elem_of_cons in Hx as [Hne Hx].
    rewrite decide_False by done. rewrite IH by done. lia.
Qed.

Lemma indexOf_inserted {A} `{EqDecision A} (x : A) (k : nat) (l : list A) :
  x ∉ l -> (k <= length l)%nat ->
  Array.indexOf x (Array.splice (Z.of_nat k) 0 [x] l) = Z.of_nat k.
Proof.
  intros Hx Hk. rewrite splice_insert_at by done. unfold Array.indexOf.
  cbn [app]. rewrite indexOf_from_middle.
  - rewrite length_take. lia.
  - intros Hin. apply Hx. by eapply subseteq_take.
Qed.

Lemma not_elem_of_delete {A} (l : list A) i x :
  NoDup l -> l !! i = Some x -> x ∉ delete i l.
Proof.
  intros Hnd Hi [j Hj]%list_elem_of_lookup.
  destruct (decide (j < i)%nat).
  - rewrite list_lookup_delete_lt in Hj by done.
    pose proof (proj1 (NoDup_alt l) Hnd _ _ _ Hi Hj). lia.
  - rewrite list_lookup_delete_ge in Hj by lia.
    pose proof (proj1 (NoDup_alt l) Hnd _ _ _ Hi Hj). lia.
Qed.

(** ** Well-formed editors *)

Lemma consistent_inv s :
  consistent s ->
  exists m l,
    model s = Some m /\ list_ s = Some l /\
    element <$> rows l = viewCells s /\
    Forall2 (fun c r => cell <$> vcells s !! c = Some r)
      (viewCells s) (cells (getNotebook m)).
Proof.
  unfold consistent. destruct (model s) as [m|]; [|done].
  destruct (list_ s) as [l|]; [|done]. intros [Hrows Hwrap].
  exists m, l. repeat split; [done|]. by apply mapM_Some.
Qed.

Lemma well_formed_inv s :
  well_formed s ->
  exists m l,
    model s = Some m /\ list_ s = Some l /\
    element <$> rows l = viewCells s /\
    Forall2 (fun c r => cell <$> vcells s !! c = Some r)
      (viewCells s) (cells (getNotebook m)) /\
    NoDup (cells (getNotebook m)) /\
    Forall (fun r => is_Some (icells s !! r)) (cells (getNotebook m)).
Proof.
  intros [Hc Hm]. destruct (consistent_inv s Hc) as (m & l & Em & El & Hrows & Hwrap).
  rewrite Em in Hm. destruct Hm. exists m, l. done.
Qed.

(** The cell shown at index [i] wraps the record at index [i], which
    [indexOf] finds there. *)
Lemma shown_cell_index s m (i : nat) c :
  Forall2 (fun c r => cell <$> vcells s !! c = Some r)
    (viewCells s) (cells (getNotebook m)) ->
  NoDup (cells (getNotebook m)) ->
  viewCells s !! i = Some c ->
  exists v, vcells s !! c = Some v /\
    cells (getNotebook m) !! i = Some (cell v) /\
    Array.indexOf (cell v) (cells (getNotebook m)) = Z.of_nat i.
Proof.
  intros Hwrap Hnd Hi.
  destruct (Forall2_lookup_l _ _ _ _ _ Hwrap Hi) as (r & Hr & Hc).
  destruct (vcells s !! c) as [v|] eqn:Hv; [|done]. simpl in Hc.
  injection Hc as <-. exists v. repeat split; [done|]. by apply indexOf_NoDup.
Qed.

Lemma well_formed_NoDup_viewCells s : well_formed s -> NoDup (viewCells s).
Proof.
  intros (m & l & _ & _ & _ & Hwrap & Hnd & _)%well_formed_inv.
  apply NoDup_alt. intros i j c Hi Hj.
  destruct (shown_cell_index s m i c Hwrap Hnd Hi) as (v & Hv & Hci & _).
  destruct (shown_cell_index s m j c Hwrap Hnd Hj) as (v' & Hv' & Hcj & _).
  assert (v' = v) as -> by congruence.
  by eapply (proj1 (NoDup_alt _) Hnd).
Qed.

Lemma fresh_record_not_in_model s (l : list loc) :
  Forall (fun r => is_Some (icells s !! r)) l -> fresh (dom (icells s)) ∉ l.
Proof.
  intros Hall Hin. rewrite Forall_forall in Hall.
  apply (is_fresh (dom (icells s))), elem_of_dom. by apply Hall.
Qed.

Lemma well_formed_inserted c type direction m v s :
  well_formed s -> model s = Some m ->
  well_formed (inserted c type direction m v s).
Proof.
  intros Hwf Hm. pose proof Hwf as [Hc _].
  destruct (well_formed_inv s Hwf) as (m' & l & Em & _ & _ & _ & Hnd & Hlive).
  assert (m' = m) as -> by congruence.
  split; [by apply consistent_inserted|].
  unfold inserted, NotebookEditorModel.insertCell. proj_state. cbn [getNotebook cells].
  split.
  - apply NoDup_splice; [done | apply NoDup_singleton|].
    intros x ->%list_elem_of_singleton. by apply fresh_record_not_in_model.
  - apply Forall_forall. intros x [Hx|Hx]%elem_of_splice.
    + apply list_elem_of_singleton in Hx as ->. rewrite lookup_insert_eq. eauto.
    + rewrite Forall_forall in Hlive. destruct (Hlive x Hx) as [r Hr].
      destruct (decide (fresh (dom (icells s)) = x)) as [<-|Hne].
      * rewrite lookup_insert_eq. eauto.
      * rewrite lookup_insert_ne by done. eauto.
Qed.

Lemma well_formed_deleted m v s :
  well_formed s -> model s = Some m -> cell v ∈ cells (getNotebook m) ->
  well_formed (deleted m v s).
Proof.
  intros Hwf Hm Hin. pose proof Hwf as [Hc _].
  destruct (well_formed_inv s Hwf) as (m' & l & Em & _ & _ & _ & Hnd & Hlive).
  assert (m' = m) as -> by congruence.
  split; [by apply consistent_deleted|].
  unfold deleted, NotebookEditorModel.deleteCell. proj_state.
  destruct (_ <? 0); cbn [getNotebook cells]; [done|]. split.
  - apply NoDup_splice; [done | constructor | by intros x ?%elem_of_nil].
  - apply Forall_forall. intros x [Hx|Hx]%elem_of_splice; [by apply elem_of_nil in Hx|].
    rewrite Forall_forall in Hlive. by apply Hlive.
Qed.

(** Structural edits never make a record or a cell appear twice: along
    any sequence of insertions and deletions whose anchors are found, the
    editor stays well-formed, and [viewCells] holds no cell twice. *)
Theorem structural_edits_keep_cells_distinct {host : Host} (es : list Event)
    (s : State) :
  well_formed s -> anchors_found es s ->
  Forall (fun cs => well_formed cs.2 /\ NoDup (viewCells cs.2)) (history es s).
Proof.
  revert s. induction es as [|e es IH]; intros s Hs Has; simpl; [constructor|].
  destruct Has as [Ha Has].
  assert (well_formed (exec e s).2) as Hwf.
  { destruct e; simpl in Ha; try done; unfold anchor_found in Ha;
      destruct (model s) as [m|] eqn:Hm; try done;
      destruct (vcells s !! c) as [v|] eqn:Hv; try done; simpl.
    - rewrite (insertEmptyNotebookCell_eq _ _ _ _ m v) by done.
      by apply well_formed_inserted.
    - rewrite (deleteNotebookCell_eq _ _ m v) by done.
      by apply well_formed_deleted. }
  constructor; [|by apply IH].
  split; [done | by apply well_formed_NoDup_viewCells].
Qed.

(** Settles [well_formed] and similar closed goals on sample states. *)
Ltac by_computation :=
  vm_compute;
  repeat first
    [ reflexivity
    | split
    | apply NoDup_nil_2
    | apply NoDup_cons_2; [by (intros H; repeat (apply elem_of_cons in H as [H|H]; [discriminate|]); by apply elem_of_nil in H)|]
    | apply Forall_nil_2
    | apply Forall_cons_2
    | eexists; reflexivity
    | by left | right ].

Lemma structural_edits_keep_cells_distinct_witness :
  Forall (fun cs => well_formed cs.2 /\ NoDup (viewCells cs.2))
    (history (host := Sample.host)
       [ev_insertEmptyNotebookCell 1%nat code above;
        ev_deleteNotebookCell 0%nat;
        ev_insertEmptyNotebookCell 3%nat markdown below]
       Sample.shown).
Proof.
  apply (structural_edits_keep_cells_distinct (host := Sample.host));
    by_computation.
Defined.

(** ** Deleting and inserting *)

(** In a well-formed editor, deleting the cell shown at index [i] removes
    exactly that index from [viewCells], from the model's cells and from
    the rows of the list; the cell and its record are then in none of
    them, and no object of the store is touched. *)
Theorem delete_removes_exactly_the_anchor (s : State) (c : loc) (i : nat) :
  well_formed s -> viewCells s !! i = Some c ->
  exists s' v m l m' l',
    vcells s !! c = Some v /\ model s = Some m /\ list_ s = Some l /\
    NotebookEditor.deleteNotebookCell c s = (Normal tt, s') /\
    viewCells s' = delete i (viewCells s) /\
    model s' = Some m' /\
    cells (getNotebook m') = delete i (cells (getNotebook m)) /\
    list_ s' = Some l' /\ rows l' = delete i (rows l) /\
    (c ∉ viewCells s') /\ (cell v ∉ cells (getNotebook m')) /\
    icells s' = icells s /\ vcells s' = vcells s.
Proof.
  intros Hwf Hi.
  destruct (well_formed_inv s Hwf) as (m & l & Hm & Hl & Hrows & Hwrap & Hnd & _).
  destruct (shown_cell_index s m i c Hwrap Hnd Hi) as (v & Hv & Hci & Hidx).
  pose proof (lookup_lt_Some _ _ _ Hi) as Hlt.
  pose proof (lookup_lt_Some _ _ _ Hci) as Hlt'.
  assert (length (rows l) = length (viewCells s)) as Hlen
    by (by rewrite <- Hrows, length_fmap).
  eexists (deleted m v s), v, m, l, _, _.
  split; [done|]. split; [done|]. split; [done|].
  split; [by apply deleteNotebookCell_eq|].
  unfold deleted, NotebookEditorModel.deleteCell. proj_state. rewrite Hl, Hidx.
  assert ((Z.of_nat i <? 0) = false) as -> by lia.
  rewrite !splice_delete_at by lia. rewrite <- !delete_take_drop.
  cbn [getNotebook cells rows].
  repeat split; try reflexivity.
  - apply not_elem_of_delete; [by apply well_formed_NoDup_viewCells | done].
  - by apply not_elem_of_delete.
Qed.

Lemma delete_removes_exactly_the_anchor_witness :
  exists s' v m l m' l',
    vcells Sample.shown !! 1%nat = Some v /\ model Sample.shown = Some m /\
    list_ Sample.shown = Some l /\
    NotebookEditor.deleteNotebookCell 1%nat Sample.shown = (Normal tt, s') /\
    viewCells s' = delete 1%nat (viewCells Sample.shown) /\
    model s' = Some m' /\
    cells (getNotebook m') = delete 1%nat (cells (getNotebook m)) /\
    list_ s' = Some l' /\ rows l' = delete 1%nat (rows l) /\
    (1%nat ∉ viewCells s') /\ (cell v ∉ cells (getNotebook m')) /\
    icells s' = icells Sample.shown /\ vcells s' = vcells Sample.shown.
Proof.
  apply (delete_removes_exactly_the_anchor Sample.shown 1%nat 1%nat);
    by_computation.
Defined.

(** In a well-formed editor, inserting a cell beside a found anchor and
    then deleting the inserted cell restores [viewCells], the model and
    the list to what they were. *)
Theorem insert_then_delete_restores_the_orderings (s : State) (c : loc)
    (type : CellType) (direction : Direction) :
  well_formed s -> anchor_found c s ->
  let newCell := fresh (dom (vcells s)) in
  let s1 := (NotebookEditor.insertEmptyNotebookCell c type direction s).2 in
  exists s2,
    NotebookEditor.deleteNotebookCell newCell s1 = (Normal tt, s2) /\
    viewCells s2 = viewCells s /\ model s2 = model s /\ list_ s2 = list_ s /\
    timers s2 = timers s.
Proof.
  intros Hwf Ha newCell s1.
  destruct (well_formed_inv s Hwf) as (m & l & Hm & Hl & Hrows & Hwrap & Hnd & Hlive).
  unfold anchor_found in Ha. rewrite Hm in Ha.
  destruct (vcells s !! c) as [v|] eqn:Hv; [|done].
  destruct (indexOf_found _ _ Ha) as (n & Hn & Hlt & _).
  pose proof (Forall2_length _ _ _ Hwrap) as Hlen.
  assert (length (rows l) = length (viewCells s)) as Hlen'
    by (by rewrite <- Hrows, length_fmap).
  subst s1. rewrite (insertEmptyNotebookCell_eq _ _ _ _ m v) by done. cbn [snd].
  set (k := match direction with above => n | below => S n end).
  assert (match direction with
          | above => Array.indexOf (cell v) (cells (getNotebook m))
          | below => Array.indexOf (cell v) (cells (getNotebook m)) + 1
          end = Z.of_nat k) as Hk by (subst k; rewrite Hn; destruct direction; lia).
  assert (k <= length (cells (getNotebook m)))%nat as Hkle
    by (subst k; destruct direction; lia).
  set (s1 := inserted c type direction m v s).
  set (r := fresh (dom (icells s))).
  assert (model s1 = Some (NotebookEditorModel.insertCell r (Z.of_nat k) m)) as Hm1
    by (subst s1; unfold inserted; proj_state; by rewrite Hk).
  assert (vcells s1 !! newCell
          = Some (mkViewCell r (bool_decide (type = markdown)) None false None None))
    as Hv1 by (subst s1; unfold inserted; proj_state; apply lookup_insert_eq).
  eexists. split; [by apply (deleteNotebookCell_eq _ _ _ _ Hm1 Hv1)|].
  unfold deleted, NotebookEditorModel.deleteCell, NotebookEditorModel.insertCell.
  proj_state. cbn [getNotebook cells textModel].
  rewrite indexOf_inserted
    by first [by apply fresh_record_not_in_model | done].
  assert ((Z.of_nat k <? 0) = false) as -> by lia.
  subst s1. unfold inserted. proj_state. rewrite Hl, Hk. cbn [rows delegate].
  rewrite !splice_insert_delete by lia.
  repeat split; [by destruct m as [? []] | by destruct l].
Qed.

Lemma insert_then_delete_restores_the_orderings_witness :
  let s1 := (NotebookEditor.insertEmptyNotebookCell 2%nat code above Sample.shown).2 in
  exists s2,
    NotebookEditor.deleteNotebookCell 3%nat s1 = (Normal tt, s2) /\
    viewCells s2 = viewCells Sample.shown /\ model s2 = model Sample.shown /\
    list_ s2 = list_ Sample.shown /\ timers s2 = timers Sample.shown.
Proof.
  apply (insert_then_delete_restores_the_orderings Sample.shown 2%nat code above);
    by_computation.
Defined.

(** ** The deferred height update of a cell that is shown *)

(** In a well-formed editor, when the next timer is the deferred update
    of the cell now shown at index [i], running it completes normally,
    calls the list once with that index, and replaces the height held for
    that row, and for no other, by the reported one; the editor is still
    well-formed. *)
Theorem deferred_update_patches_the_current_row (s : State) (c : loc) (i : nat)
    (height : Z) (rest : list (loc * Z)) :
  well_formed s -> viewCells s !! i = Some c ->
  timers s = (c, height) :: rest ->
  exists l s',
    list_ s = Some l /\
    NotebookEditor.runTimeout s = (Normal tt, s') /\
    s' = mkState (icells s) (vcells s)
           (Some (mkList (delegate l) (<[i := mkRow c height]> (rows l))))
           (model s) (viewCells s) rest
           (calls s ++ [list_updateDynamicHeight (Z.of_nat i) c height]) /\
    well_formed s'.
Proof.
  intros Hwf Hi Ht.
  destruct (well_formed_inv s Hwf) as (m & l & Hm & Hl & Hrows & Hwrap & Hnd & Hlive).
  destruct (shown_cell_index s m i c Hwrap Hnd Hi) as (v & Hv & Hci & Hidx).
  assert (exists row, rows l !! i = Some row /\ element row = c) as (row & Hrow & He).
  { rewrite <- Hrows, list_lookup_fmap in Hi.
    destruct (rows l !! i) as [row|]; [|done]. injection Hi as <-. eauto. }
  eexists l, _. split; [done|].
  assert (NotebookEditor.runTimeout s =
    (Normal tt,
     mkState (icells s) (vcells s)
       (Some (mkList (delegate l) (<[i := mkRow c height]> (rows l))))
       (model s) (viewCells s) rest
       (calls s ++ [list_updateDynamicHeight (Z.of_nat i) c height]))) as Hrun.
  { unfold NotebookEditor.runTimeout. rewrite bind_eq, get_eq, Ht.
    rewrite bind_eq, modify_eq.
    rewrite (layoutElement_timeout_eq _ c height m v) by done.
    unfold height_updated, WorkbenchList.updateDynamicHeight. proj_state.
    rewrite Hl, Hidx.
    assert ((Z.of_nat i <? 0) = false) as -> by lia.
    rewrite Nat2Z.id, Hrow. by rewrite decide_True by done. }
  split; [exact Hrun|]. split; [reflexivity|].
  unfold well_formed, consistent. proj_state. rewrite Hm. cbn [rows].
  repeat split; [| by apply mapM_Some | done | done].
  rewrite list_fmap_insert. cbn [element]. rewrite Hrows.
  by apply list_insert_id.
Qed.

Lemma deferred_update_patches_the_current_row_witness :
  let s := run (host := Sample.host)
             [ev_layoutElement 2%nat 190; ev_deleteNotebookCell 0%nat] Sample.shown in
  exists l s',
    list_ s = Some l /\
    NotebookEditor.runTimeout s = (Normal tt, s') /\
    s' = mkState (icells s) (vcells s)
           (Some (mkList (delegate l) (<[1%nat := mkRow 2%nat 190]> (rows l))))
           (model s) (viewCells s) []
           (calls s ++ [list_updateDynamicHeight 1 2%nat 190]) /\
    well_formed s'.
Proof.
  intros s.
  apply (deferred_update_patches_the_current_row s 2%nat 1%nat 190 []);
    by_computation.
Defined.

(** ** Before a document is open *)

(** While the editor has no model, a request to insert or delete a cell,
    and a deferred height update, throw a [TypeError] before anything is
    done to [viewCells], to the list or to the log of calls.  Deletion
    leaves the state as it is, the timer is only consumed, and insertion
    has only created its two new objects, which nothing refers to. *)
Theorem without_a_model_nothing_is_edited (s : State) (c : loc) :
  model s = None ->
  (forall type direction,
     NotebookEditor.insertEmptyNotebookCell c type direction s =
     (Throw "TypeError",
      mkState
        (<[fresh (dom (icells s)) := mkICell type [] []]> (icells s))
        (<[fresh (dom (vcells s)) :=
             mkViewCell (fresh (dom (icells s))) (bool_decide (type = markdown))
               None false None None]> (vcells s))
        (list_ s) None (viewCells s) (timers s) (calls s))) /\
  NotebookEditor.deleteNotebookCell c s = (Throw "TypeError", s) /\
  (forall height rest,
     timers s = (c, height) :: rest ->
     NotebookEditor.runTimeout s = (Throw "TypeError", set_timers rest s)).
Proof.
  intros Hm.
  assert (forall s0, model s0 = None ->
            NotebookEditor.the_model s0 = (Throw "TypeError", s0)) as Hthe.
  { intros s0 H0. unfold NotebookEditor.the_model. rewrite bind_eq, get_eq.
    cbn beta iota. by rewrite H0. }
  split; [|split].
  - intros type direction.
    unfold NotebookEditor.insertEmptyNotebookCell, NotebookEditor.new_cell, ViewCell.new.
    exec_all. rewrite Hthe by done. cbn beta iota. state_eq. by rewrite Hm.
  - unfold NotebookEditor.deleteNotebookCell. rewrite bind_eq. by rewrite Hthe.
  - intros height rest Ht.
    unfold NotebookEditor.runTimeout. rewrite bind_eq, get_eq, Ht.
    rewrite bind_eq, modify_eq. unfold NotebookEditor.layoutElement_timeout.
    rewrite bind_eq. by rewrite Hthe.
Qed.

Lemma without_a_model_nothing_is_edited_witness :
  NotebookEditor.deleteNotebookCell 0%nat Sample.opened
    = (Throw "TypeError", Sample.opened) /\
  viewCells (NotebookEditor.insertEmptyNotebookCell 0%nat code below Sample.opened).2
    = [] /\
  (NotebookEditor.insertEmptyNotebookCell 0%nat code below Sample.opened).1
    = Throw "TypeError".
Proof.
  destruct (without_a_model_nothing_is_edited Sample.opened 0%nat eq_refl)
    as (Hins & Hdel & _).
  split; [exact Hdel|]. rewrite (Hins code below). split; reflexivity.
Defined.

(** ** Opening the document that is shown *)

#[local] Instance same_model_preorder : PreOrder same_model.
Proof. split; unfold same_model; [intros ? | intros ? ? ?]; congruence. Qed.

#[local] Instance same_textModel_preorder : PreOrder same_textModel.
Proof. split; unfold same_textModel; [intros ? | intros ? ? ?]; congruence. Qed.

Lemma same_textModel_on_model call f :
  (forall m, textModel (f m) = textModel m) ->
  preserves same_textModel (NotebookEditor.on_model call f).
Proof.
  intros Hf s. unfold NotebookEditor.on_model, NotebookEditor.the_model.
  rewrite !bind_eq, get_eq. cbn beta iota.
  destruct (model s) as [m|] eqn:Hm; [|reflexivity].
  exec_all. unfold same_textModel. simpl. by rewrite Hm, Hf.
Qed.

Lemma same_textModel_exec {host : Host} e :
  is_setInput e = false -> preserves same_textModel (exec e).
Proof.
  intros He. destruct e; simpl in *; try discriminate;
    unfold discard, ViewCell.setDynamicHeight, ViewCell.hasDynamicHeight,
      ViewCell.getHeight, ViewCell.setText, ViewCell.save, ViewCell.getText,
      ViewCell.cellType, ViewCell.lineCount, edit_buffer,
      NotebookEditor.onHide, NotebookEditor.layoutElement,
      NotebookEditor.runTimeout, NotebookEditor.layoutElement_timeout,
      NotebookEditor.insertEmptyNotebookCell, NotebookEditor.deleteNotebookCell,
      NotebookEditor.on_list, NotebookEditor.the_model,
      WorkbenchList.splice, NotebookCellListDelegate.getHeight, log.
  all: repeat first
    [ apply same_textModel_on_model; intros ?;
      first [ reflexivity
            | unfold NotebookEditorModel.deleteCell; by destruct (_ <? 0) ]
    | apply preserves_modify; intros ?; reflexivity
    | rel_step fail ].
Qed.

Lemma setInput_model s resolved :
  (NotebookEditor.setInput resolved s).1 = Normal tt ->
  textModel <$> model (NotebookEditor.setInput resolved s).2
    = Some (textModel resolved).
Proof.
  unfold NotebookEditor.setInput. rewrite bind_eq, get_eq. cbn beta iota.
  destruct (match model s with Some m => _ | None => false end) eqn:Hg.
  - intros _. rewrite ret_eq. simpl.
    destruct (model s) as [m|]; [|done]. apply bool_decide_eq_true in Hg.
    simpl. by rewrite Hg.
  - rewrite bind_eq.
    destruct (forEach ViewCell.save (viewCells s) s) as [[[]|e] s1]; [|done].
    rewrite bind_eq, modify_eq. cbn beta iota. intros _.
    match goal with
    | |- context [(?rest (set_model ?m s1)).2] =>
        assert (preserves same_model rest) as Hrest
    end.
    { unfold NotebookEditor.on_list, WorkbenchList.splice,
        NotebookCellListDelegate.getHeight, log.
      repeat first
        [ apply preserves_modify; intros ?; reflexivity
        | rel_step fail ]. }
    rewrite (Hrest (set_model (Some resolved) s1)). done.
Qed.

(** Once [setInput] has completed for a document, and whatever else has
    happened since short of another [setInput], a [setInput] that resolves
    to a model with the same [textModel] changes nothing: no cell is
    saved or rebuilt and the list is not called, whatever the cells of
    the newly resolved model are. *)
Theorem setInput_of_the_shown_document_changes_nothing {host : Host} (s : State)
    (resolved resolved' : NotebookEditorModel) (es : list Event) :
  (NotebookEditor.setInput resolved s).1 = Normal tt ->
  textModel resolved' = textModel resolved ->
  forallb (fun e => negb (is_setInput e)) es = true ->
  let s' := run es (NotebookEditor.setInput resolved s).2 in
  NotebookEditor.setInput resolved' s' = (Normal tt, s').
Proof.
  intros Hn Htm Hes s'.
  pose proof (setInput_model s resolved Hn) as Hm.
  pose proof (preserves_run same_textModel (fun e => negb (is_setInput e))
                (fun e He => same_textModel_exec e (proj1 (negb_true_iff _) He))
                es (NotebookEditor.setInput resolved s).2 Hes) as Hkeep.
  unfold same_textModel in Hkeep. fold s' in Hkeep. rewrite Hm in Hkeep.
  unfold NotebookEditor.setInput. rewrite bind_eq, get_eq. cbn beta iota.
  destruct (model s') as [m'|]; [|done]. injection Hkeep as Hkeep.
  rewrite bool_decide_eq_true_2 by congruence. done.
Qed.

Lemma setInput_of_the_shown_document_changes_nothing_witness :
  let s' := run (host := Sample.host)
              [ev_setDynamicHeight 1%nat 250; ev_deleteNotebookCell 0%nat]
              Sample.shown in
  NotebookEditor.setInput (mkModel 100%nat (mkNotebook [10; 11; 12]%nat)) s'
    = (Normal tt, s').
Proof.
  apply (setInput_of_the_shown_document_changes_nothing (host := Sample.host)
    Sample.opened Sample.document
    (mkModel 100%nat (mkNotebook [10; 11; 12]%nat))
    [ev_setDynamicHeight 1%nat 250; ev_deleteNotebookCell 0%nat]);
    reflexivity.
Defined.

(** ** Switching to another document *)

Lemma save_saved s c v r :
  vcells s !! c = Some v -> icells s !! cell v = Some r ->
  ViewCell.save c s = (Normal tt, set_icells <[cell v := saved v r]> s).
Proof.
  intros Hv Hr. rewrite (save_eq _ _ _ _ Hv Hr). f_equal. unfold saved.
  destruct (_textModel v); [destruct (isEditing v)|]; try done.
  all: destruct s; unfold set_icells; simpl in *; f_equal; by rewrite insert_id.
Qed.

Lemma forEach_save_saved l ks s :
  Forall2 (fun c k => exists v,
             vcells s !! c = Some v /\ cell v = k /\ is_Some (icells s !! k)) l ks ->
  NoDup ks ->
  exists ics,
    forEach ViewCell.save l s = (Normal tt, set_icells (fun _ => ics) s) /\
    Forall2 (fun c k => forall v r,
               vcells s !! c = Some v -> icells s !! k = Some r ->
               ics !! k = Some (saved v r)) l ks /\
    (forall k, k ∉ ks -> ics !! k = icells s !! k).
Proof.
  intros Hall. revert s Hall. revert ks.
  induction l as [|c l IH]; intros ks s Hall Hnd.
  - apply Forall2_nil_inv_l in Hall as ->.
    exists (icells s). split; [by destruct s|]. split; [constructor | done].
  - apply Forall2_cons_inv_l in Hall as (k & ks' & (v & Hv & Hk & [r Hr]) & Hall & ->).
    apply NoDup_cons in Hnd as [Hnotin Hnd]. subst k. simpl.
    rewrite bind_eq, (save_saved _ _ _ _ Hv Hr).
    set (s1 := set_icells <[cell v := saved v r]> s).
    destruct (IH ks' s1) as (ics & Hrun & Hsaved & Hother); [|done|].
    { eapply Forall2_impl; [exact Hall|]. intros c' k' (v' & Hv' & Hk' & Hr').
      exists v'. split; [done|]. split; [done|]. subst s1. simpl.
      destruct (decide (cell v = k')) as [<-|Hne].
      - rewrite lookup_insert_eq. eauto.
      - by rewrite lookup_insert_ne. }
    exists ics. split; [exact Hrun|]. split.
    + constructor.
      * intros v0 r0 Hv0 Hr0. assert (v0 = v) as -> by congruence.
        assert (r0 = r) as -> by congruence.
        rewrite (Hother _ Hnotin). subst s1. simpl. apply lookup_insert_eq.
      * apply Forall2_same_length_lookup.
        apply Forall2_same_length_lookup in Hsaved as [Hlen Hsaved].
        split; [done|]. intros i c' k' Hc' Hk' v' r' Hv' Hr'.
        apply (Hsaved i c' k' Hc' Hk'); [done|]. subst s1. simpl.
        rewrite lookup_insert_ne; [done|].
        intros E. apply Hnotin. rewrite E. by eapply list_elem_of_lookup_2.
    + intros k Hk. apply not_elem_of_cons in Hk as [Hne Hk].
      rewrite (Hother k Hk). subst s1. simpl. by rewrite lookup_insert_ne.
Qed.

Lemma mapM_new_fresh cs s :
  exists vcs vs,
    mapM_ (fun c => ViewCell.new c false) cs s
      = (Normal vcs, set_vcells (fun _ => vs) s) /\
    Forall2 (fun vc c =>
               vcells s !! vc = None /\
               vs !! vc = Some (mkViewCell c false None false None None)) vcs cs /\
    vcells s ⊆ vs.
Proof.
  revert s. induction cs as [|c cs IH]; intros s.
  - exists [], (vcells s). split; [by destruct s|]. split; [constructor | done].
  - simpl. rewrite bind_eq, new_eq.
    set (n := fresh (dom (vcells s))).
    set (nv := mkViewCell c false None false None None).
    assert (vcells s !! n = None) as Hn by apply not_elem_of_dom, is_fresh.
    destruct (IH (set_vcells <[n := nv]> s)) as (vcs & vs & Hrun & Hall & Hsub).
    exists (n :: vcs), vs. rewrite bind_eq, Hrun. exec_all. split; [done|].
    assert (vcells s ⊆ vs) as Hsub'.
    { etransitivity; [|exact Hsub]. simpl. by apply insert_subseteq. }
    split; [|done]. constructor.
    + split; [done|]. eapply lookup_weaken; [|exact Hsub]. apply lookup_insert_eq.
    + eapply Forall2_impl; [exact Hall|]. intros vc c' [Hnone Hsome].
      split; [|done]. simpl in Hnone.
      eapply lookup_weaken_None; [exact Hnone|]. by apply insert_subseteq.
Qed.

(** The whole of [setInput] when it switches documents, on an editor whose
    list exists: [ks] are the records the cells shown so far wrap, each
    once. *)
Lemma setInput_switch (s : State) (resolved : NotebookEditorModel)
    (l : WorkbenchList) (ks : list loc) :
  list_ s = Some l ->
  (forall m, model s = Some m -> textModel m ≠ textModel resolved) ->
  Forall2 (fun c k => exists v,
             vcells s !! c = Some v /\ cell v = k /\ is_Some (icells s !! k))
    (viewCells s) ks ->
  NoDup ks ->
  Forall (fun r => is_Some (icells s !! r)) (cells (getNotebook resolved)) ->
  exists ics vs vcs rs,
    NotebookEditor.setInput resolved s =
      (Normal tt,
       mkState ics vs (Some (mkList (delegate l) rs)) (Some resolved) vcs (timers s)
         (calls s ++ [list_splice 0 (WorkbenchList.length l) vcs; list_layout])) /\
    Forall2 (fun c k => forall v r,
               vcells s !! c = Some v -> icells s !! k = Some r ->
               ics !! k = Some (saved v r)) (viewCells s) ks /\
    (forall k, k ∉ ks -> ics !! k = icells s !! k) /\
    Forall2 (fun vc c =>
               vcells s !! vc = None /\
               vs !! vc = Some (mkViewCell c false None false None None))
      vcs (cells (getNotebook resolved)) /\
    vcells s ⊆ vs /\
    element <$> rs = vcs.
Proof.
  intros Hl Hm Hshown Hnd Hrec.
  unfold NotebookEditor.setInput. rewrite bind_eq, get_eq.
  assert (match model s with
          | Some m => bool_decide (textModel m = textModel resolved)
          | None => false
          end = false) as ->.
  { destruct (model s) as [m|]; [|done]. apply bool_decide_eq_false. by apply Hm. }
  destruct (forEach_save_saved _ _ s Hshown Hnd) as (ics & Hsave & Hsaved & Hother).
  assert (forall k, is_Some (icells s !! k) -> is_Some (ics !! k)) as Hics.
  { intros k [r Hr]. destruct (decide (k ∈ ks)) as [Hin|Hnot].
    - apply list_elem_of_lookup in Hin as [i Hi].
      destruct (Forall2_lookup_r _ _ _ _ _ Hshown Hi) as (c & Hc & v & Hv & Hk & _).
      rewrite (Forall2_lookup_lr _ _ _ _ _ _ Hsaved Hc Hi v r Hv Hr). eauto.
    - rewrite (Hother k Hnot). eauto. }
  rewrite bind_eq, Hsave. exec_all.
  match goal with
  | |- context [mapM_ _ ?cs ?st] =>
      destruct (mapM_new_fresh cs st) as (vcs & vs & Hnew & Hall & Hsub)
  end.
  rewrite Hnew. exec_all. unfold NotebookEditor.on_list. exec_all.
  rewrite Hl. exec_all. unfold WorkbenchList.splice.
  rewrite !(bind_eq (mapM_ _ _)).
  match goal with
  | |- context [mapM_ _ vcs ?st] =>
      destruct (mapM_rows (delegate l) vcs st) as (rs & Hrows & Hrs)
  end.
  { eapply Forall2_Forall_l; [exact Hall|].
    eapply Forall_impl; [exact Hrec|]. intros c Hc vc [_ Hvc].
    apply Hics in Hc as [r Hr]. proj_state. eauto. }
  rewrite !Hrows. exec_all. unfold WorkbenchList.length at 1.
  rewrite splice_replace_all.
  exists ics, vs, vcs, rs. split.
  - f_equal. unfold WorkbenchList.layout. state_eq.
  - done.
Qed.

Lemma well_formed_shown s m :
  well_formed s -> model s = Some m ->
  Forall2 (fun c k => exists v,
             vcells s !! c = Some v /\ cell v = k /\ is_Some (icells s !! k))
    (viewCells s) (cells (getNotebook m)) /\
  NoDup (cells (getNotebook m)).
Proof.
  intros (m' & l & Hm & _ & _ & Hwrap & Hnd & Hlive)%well_formed_inv Em.
  assert (m' = m) as -> by congruence. split; [|done].
  apply Forall2_same_length_lookup.
  apply Forall2_same_length_lookup in Hwrap as [Hlen Hwrap].
  split; [done|]. intros i c k Hc Hk. specialize (Hwrap i c k Hc Hk).
  destruct (vcells s !! c) as [v|]; [|done]. injection Hwrap as <-.
  exists v. repeat split. rewrite Forall_forall in Hlive.
  apply Hlive. by eapply list_elem_of_lookup_2.
Qed.

(** When [setInput] switches a well-formed editor to another document, it
    completes normally, having first saved every cell it is about to
    discard: the record of each cell shown before holds what [save()]
    leaves there (the lines of the buffer when the cell was editing and
    had one, the old source otherwise), and every other record is as it
    was. *)
Theorem setInput_saves_before_it_switches (s : State)
    (resolved : NotebookEditorModel) :
  well_formed s ->
  (forall m, model s = Some m -> textModel m ≠ textModel resolved) ->
  Forall (fun r => is_Some (icells s !! r)) (cells (getNotebook resolved)) ->
  exists s',
    NotebookEditor.setInput resolved s = (Normal tt, s') /\
    (forall i c v r,
       viewCells s !! i = Some c -> vcells s !! c = Some v ->
       icells s !! cell v = Some r ->
       icells s' !! cell v = Some (saved v r)) /\
    (forall k,
       (forall c v, c ∈ viewCells s -> vcells s !! c = Some v -> cell v ≠ k) ->
       icells s' !! k = icells s !! k).
Proof.
  intros Hwf Hm Hrec.
  destruct (well_formed_inv s Hwf) as (m & l & Em & Hl & _).
  destruct (well_formed_shown s m Hwf Em) as [Hshown Hnd].
  destruct (setInput_switch s resolved l _ Hl Hm Hshown Hnd Hrec)
    as (ics & vs & vcs & rs & Hrun & Hsaved & Hother & _).
  eexists. split; [exact Hrun|]. proj_state. split.
  - intros i c v r Hc Hv Hr.
    destruct (Forall2_lookup_l _ _ _ _ _ Hshown Hc) as (k & Hk & v' & Hv' & Hcell & _).
    assert (v' = v) as -> by congruence. subst k.
    exact (Forall2_lookup_lr _ _ _ _ _ _ Hsaved Hc Hk v r Hv Hr).
  - intros k Hk. apply Hother. intros [i Hi]%list_elem_of_lookup.
    destruct (Forall2_lookup_r _ _ _ _ _ Hshown Hi) as (c & Hc & v & Hv & Hcell & _).
    apply (Hk c v); [by eapply list_elem_of_lookup_2 | done | done].
Qed.

Lemma setInput_saves_before_it_switches_witness :
  let s := run (host := Sample.host)
             [ev_insertEmptyNotebookCell 0%nat markdown below;
              ev_getTextModel 3%nat; ev_edit_buffer 3%nat ["kept"];
              ev_getTextModel 1%nat; ev_edit_buffer 1%nat ["lost"]]
             Sample.shown in
  exists s',
    NotebookEditor.setInput (mkModel 7%nat (mkNotebook [12%nat])) s = (Normal tt, s') /\
    source <$> icells s' !! 13%nat = Some ["kept" +:+ LF] /\
    icells s' !! 11%nat = icells s !! 11%nat.
Proof.
  intros s.
  destruct (setInput_saves_before_it_switches s (mkModel 7%nat (mkNotebook [12%nat])))
    as (s' & Hrun & Hsaved & _).
  - by_computation.
  - intros m Hm. vm_compute in Hm. injection Hm as <-. discriminate.
  - by_computation.
  - exists s'. split; [exact Hrun|]. split.
    + assert (H : icells s' !! cell (mkViewCell 13%nat true (Some (mkTextModel ["kept"])) false None None) =
                  Some (saved (mkViewCell 13%nat true (Some (mkTextModel ["kept"])) false None None)
                          (mkICell markdown [] [])))
        by (apply (Hsaved 1%nat 3%nat); vm_compute; reflexivity).
      exact (f_equal (fmap source) H).
    + assert (H : icells s' !! cell (mkViewCell 11%nat false (Some (mkTextModel ["lost"])) false None None) =
                  Some (saved (mkViewCell 11%nat false (Some (mkTextModel ["lost"])) false None None)
                          (default (mkICell code [] []) (icells s !! 11%nat))))
        by (apply (Hsaved 2%nat 1%nat); vm_compute; reflexivity).
      etrans; [exact H|]. vm_compute. reflexivity.
Defined.



(** ** The markdown renderer *)









(** ** The code renderer *)






(** ** The renderers as clients of the cell *)

Section runs_as.
Context {host : Host} (ok : Event -> bool).

Lemma run_app es1 es2 s : run (es1 ++ es2) s = run es2 (run es1 s).
Proof. apply foldl_app. Qed.

Lemma runs_as_same_state {A} (m : M A) : (forall s, (m s).2 = s) -> runs_as ok m.
Proof. intros H s. exists []. by rewrite H. Qed.

Lemma runs_as_event {A} (m : M A) e :
  ok e = true -> (forall s, (m s).2 = (exec e s).2) -> runs_as ok m.
Proof.
  intros He H s. exists [e]. simpl. by rewrite He, H.
Qed.

Lemma runs_as_bind {A B} (m : M A) (f : A -> M B) :
  runs_as ok m -> (forall a, runs_as ok (f a)) -> runs_as ok (m ≫= f).
Proof.
  intros Hm Hf s. destruct (Hm s) as (es1 & Hok1 & H1). rewrite bind_eq.
  destruct (m s) as [[a|e] s'] eqn:E; simpl in H1; subst s'.
  - destruct (Hf a (run es1 s)) as (es2 & Hok2 & H2).
    exists (es1 ++ es2). split.
    + by rewrite forallb_app, Hok1, Hok2.
    + by rewrite run_app.
  - by exists es1.
Qed.

Lemma runs_as_deref_view c : runs_as ok (deref_view c).
Proof.
  apply runs_as_same_state. intros s. unfold deref_view.
  by destruct (vcells s !! c).
Qed.

Lemma runs_as_deref_cell k : runs_as ok (deref_cell k).
Proof.
  apply runs_as_same_state. intros s. unfold deref_cell.
  by destruct (icells s !! k).
Qed.

Lemma runs_as_ret {A} (a : A) : runs_as ok (mret a).
Proof. by apply runs_as_same_state. Qed.

Lemma runs_as_throw {A} e : runs_as ok (throw (A := A) e).
Proof. by apply runs_as_same_state. Qed.

Lemma discard_state {A} (m : M A) s : (discard m s).2 = (m s).2.
Proof. unfold discard. rewrite bind_eq. by destruct (m s) as [[?|?] ?]. Qed.

End runs_as.

Ltac ok_event :=
  cbn [renders latches]; by rewrite ?bool_decide_eq_true_2 by done.

Ltac runs_as_step :=
  first
    [ apply runs_as_ret
    | apply runs_as_throw
    | apply runs_as_deref_view
    | apply runs_as_deref_cell
    | match goal with
      | |- runs_as _ (ViewCell.getTextModel ?c) =>
          apply (runs_as_event _ _ (ev_getTextModel c));
          [ok_event
          | by intros; simpl; rewrite discard_state]
      | |- runs_as _ (ViewCell.getHTML ?c) =>
          apply (runs_as_event _ _ (ev_getHTML c));
          [ok_event
          | by intros; simpl; rewrite discard_state]
      | |- runs_as _ (ViewCell.setText ?c ?l) =>
          apply (runs_as_event _ _ (ev_setText c l));
          [ok_event | done]
      | |- runs_as _ (ViewCell.setDynamicHeight ?c ?h) =>
          apply (runs_as_event _ _ (ev_setDynamicHeight c h));
          [ok_event | done]
      | |- runs_as _ (NotebookEditor.layoutElement ?c ?h) =>
          apply (runs_as_event _ _ (ev_layoutElement c h));
          [ok_event | done]
      | |- runs_as _ (_ ≫= _) => apply runs_as_bind; [|intros ?]
      | |- runs_as _ (if ?b then _ else _) => destruct b
      | |- runs_as _ (match ?x with _ => _ end) => destruct x
      end ].

(** The renderers change the cells and the editor through the interface
    of the cell alone.  Whatever the state and the values read from the
    page, and however the call ends, what [renderElement] or a callback
    it registered leaves behind is what a sequence of [getTextModel],
    [getHTML], [setText], [setDynamicHeight] and [layoutElement] calls on
    the element leaves; for the markdown renderer the sequence holds no
    [setDynamicHeight].  Everything shown for sequences of events
    therefore holds across rendering. *)
Theorem renderers_act_through_the_cell {host : Host}
    (render : string -> option bool) (element : loc) (height : option Z)
    (measured : Z) (attached : bool) :
  runs_as (fun e => renders element e && negb (latches element e))
    (MarkdownCellRenderer.renderElement element height) /\
  (forall totalHeight,
     runs_as (fun e => renders element e && negb (latches element e))
       (MarkdownCellRenderer.contentChanged
          (mkContentListener element totalHeight) measured)) /\
  runs_as (renders element)
    (CodeCellRenderer.renderElement render element height measured) /\
  (forall totalHeight dimensions_height,
     runs_as (renders element)
       (CodeCellRenderer.sizeChanged
          (mkSizeObserver element totalHeight dimensions_height)
          attached measured)).
Proof.
  repeat split; intros;
    unfold MarkdownCellRenderer.renderElement, MarkdownCellRenderer.contentChanged,
      CodeCellRenderer.renderElement, CodeCellRenderer.sizeChanged,
      ViewCell.lineCount, ViewCell.outputs, ViewCell.hasDynamicHeight;
    cbn [listener_element listener_totalHeight observer_element
         observer_totalHeight observer_dimensions_height];
    repeat runs_as_step.
Qed.
